(** * CV screener: the retrieval pipeline of [utils/rag.py] and the chat
      handler of [app.py]

    The Python sources are embedded shallowly.  A [str] is the list of its
    Unicode code points, [None] is the [None] of an [option], the dict of a
    node's metadata and the [__dict__] of a [SourcePreview] are finite maps.
    The calls into LlamaIndex and the file system are the fields of a
    [Library] interface, so that every statement holds for whatever those
    calls answer; each call is also recorded in a log, next to the
    Streamlit calls that show something to the user.  A method runs on the
    instance and the process, and returns a value or raises.  The
    constructor raises when one of the three objects it builds cannot be
    built; building a prompt template or a query engine is taken to
    return.  The [print] lines of [rag.py], the time stamps of the chat
    messages and the page layout of [app.py] are left out; [os.path] is
    [posixpath]. *)

From Stdlib Require Import ZArith QArith Qabs Lia String Ascii.
From stdpp Require Import gmap strings list.

Local Open Scope Z_scope.

(** ** Python strings *)

Module Py.

(** A [str] as the list of its code points; [len] is [length]. *)
Definition str := list N.

(** The value of a string literal of the source (ASCII text). *)
Definition lit (s : string) : str :=
  map N_of_ascii (list_ascii_of_string s).
Arguments lit : simpl never.

(** [str.isspace] of one character: the code points that CPython's
    [_PyUnicode_IsWhitespace] accepts, which is what [str.strip()] removes. *)
Definition isspace (c : N) : bool :=
  ((9 <=? c) && (c <=? 13) || (28 <=? c) && (c <=? 32)
   || (c =? 133) || (c =? 160) || (c =? 5760)
   || (8192 <=? c) && (c <=? 8202)
   || (c =? 8232) || (c =? 8233) || (c =? 8239) || (c =? 8287)
   || (c =? 12288))%N.

Fixpoint lstrip (s : str) : str :=
  match s with
  | [] => []
  | c :: r => if isspace c then lstrip r else s
  end.

Definition rstrip (s : str) : str := reverse (lstrip (reverse s)).

(** [s.strip()] *)
Definition strip (s : str) : str := rstrip (lstrip s).

(** [s[:n]] for a non-negative literal [n]. *)
Definition slice_to (n : nat) (s : str) : str := take n s.

(** Truthiness of a [str]: the empty string is falsy. *)
Definition truthy (s : str) : bool :=
  match s with [] => false | _ => true end.

(** Truthiness of a value that is a [str] or [None]. *)
Definition truthy_opt (a : option str) : bool :=
  match a with Some s => truthy s | None => false end.

(** [a or b] where [a] is a [str] or [None]. *)
Definition or_str (a b : option str) : option str :=
  if truthy_opt a then a else b.

Definition slash : N := 47.

(** [p.rfind('/')]: the index of the last ['/'], or [-1]. *)
Fixpoint rfind_slash (p : str) : Z :=
  match p with
  | [] => -1
  | c :: r =>
      let i := rfind_slash r in
      if 0 <=? i then i + 1
      else if (c =? slash)%N then 0 else -1
  end.

(** [os.path.basename] of [posixpath]: [i = p.rfind('/') + 1; p[i:]]. *)
Definition basename (p : str) : str :=
  drop (Z.to_nat (rfind_slash p + 1)) p.

(** [round(x, 3)] of a float, on the exact rational value of [x]: the
    nearest multiple of 1/1000, a tie going to the even multiple.  The
    float [round] returns is the double nearest to this decimal. *)
Definition round_half_even (n : Z) (d : positive) : Z :=
  let f := n / Z.pos d in
  let r := n mod Z.pos d in
  if 2 * r <? Z.pos d then f
  else if Z.pos d <? 2 * r then f + 1
  else if Z.even f then f else f + 1.

Definition round3 (x : Q) : Q :=
  Qred (Qmake (round_half_even (Qnum x * 1000) (Qden x)) 1000).

(** [x or 0.0] where [x] is a float or [None]: [None] and zero are falsy. *)
Definition or_zero (x : option Q) : Q :=
  match x with
  | Some q => if Qeq_bool q 0 then 0%Q else q
  | None => 0%Q
  end.

End Py.

(** ** Exceptions and results *)

Inductive exn : Type :=
| ValueError (msg : Py.str)
| TypeError (msg : Py.str)
| AttributeError (msg : Py.str)
| LibraryError (cls msg : Py.str)      (* an [Exception] raised by a dependency *)
| BaseOnly (cls : Py.str).             (* [KeyboardInterrupt], [SystemExit], ... *)

(** [isinstance(e, Exception)], what [except Exception] catches. *)
Definition is_Exception (e : exn) : bool :=
  match e with BaseOnly _ => false | _ => true end.

(** [str(e)] *)
Definition exn_str (e : exn) : Py.str :=
  match e with
  | ValueError m | TypeError m | AttributeError m | LibraryError _ m => m
  | BaseOnly _ => []
  end.

Inductive outcome (A : Type) : Type :=
| Ok (a : A)
| Raised (e : exn).
Arguments Ok {A} a.
Arguments Raised {A} e.

Definition obind {A B} (o : outcome A) (k : A -> outcome B) : outcome B :=
  match o with Ok a => k a | Raised e => Raised e end.

(** ** Retrieved nodes and their previews *)

(** What [_extract_sources] reads of a [NodeWithScore]: the metadata dict
    of its node (or [None]), the node text (or [None]) and the score (or
    [None]).  A metadata value is a [str] or [None]. *)
Record SourceNode : Type := {
  sn_metadata : option (gmap string (option Py.str));
  sn_text : option Py.str;
  sn_score : option Q;
}.

(** The response of a query engine: [str(response)] and the attribute
    [source_nodes], [None] when it is absent or [None]. *)
Record Response : Type := {
  response_str : Py.str;
  source_nodes : option (list SourceNode);
}.

(** The dataclass [SourcePreview]. *)
Record SourcePreview : Type := {
  file : Py.str;
  score : Q;
  text : Py.str;
}.

(** A value of a preview's [__dict__]. *)
Inductive pyval : Type :=
| VStr (s : Py.str)
| VFloat (q : Q).

(** [s.__dict__] of a [SourcePreview]. *)
Definition to_dict (s : SourcePreview) : gmap string pyval :=
  {[ "file"%string := VStr (file s);
     "score"%string := VFloat (score s);
     "text"%string := VStr (text s) ]}.

Module Raw.

(** The library calls of [_extract_sources], with the [TypeError] or
    [AttributeError] each one raises when it is handed [None]. *)

Definition dict_get (meta : option (gmap string (option Py.str))) (k : string)
  : outcome (option Py.str) :=
  match meta with
  | Some m => Ok (default None (m !! k))
  | None => Raised (AttributeError (Py.lit "'NoneType' object has no attribute 'get'"))
  end.

Definition os_path_basename (p : option Py.str) : outcome Py.str :=
  match p with
  | Some s => Ok (Py.basename s)
  | None => Raised (TypeError (Py.lit "expected str, bytes or os.PathLike object, not NoneType"))
  end.

Definition slice200 (t : option Py.str) : outcome Py.str :=
  match t with
  | Some s => Ok (Py.slice_to 200 s)
  | None => Raised (TypeError (Py.lit "'NoneType' object is not subscriptable"))
  end.

End Raw.

(** [meta = node.metadata or {}]: an empty dict is falsy and replaced by a
    fresh empty dict. *)
Definition metadata_or_empty (m : option (gmap string (option Py.str)))
  : option (gmap string (option Py.str)) :=
  match m with
  | Some d => Some d
  | None => Some ∅
  end.

Definition ellipsis : Py.str := Py.lit "...".

(** The [text=] argument: [(text + "...") if text else ""]. *)
Definition with_marker (t : Py.str) : Py.str :=
  if Py.truthy t then t ++ ellipsis else [].

(** The preview text of a node text:
    [text = (node.text or "")[:200].strip()], then the marker. *)
Definition text_preview (t : option Py.str) : outcome Py.str :=
  obind (Raw.slice200 (Py.or_str t (Some []))) (fun s =>
  Ok (with_marker (Py.strip s))).

(** The body of the loop of [_extract_sources] for one node. *)
Definition extract_one (sn : SourceNode) : outcome SourcePreview :=
  let meta := metadata_or_empty (sn_metadata sn) in
  obind (Raw.dict_get meta "file_path") (fun fp =>
  obind (if Py.truthy_opt fp then Ok fp
         else Raw.dict_get meta "file_name") (fun fp_or_fn =>
  let file_name := Py.or_str fp_or_fn (Some (Py.lit "Unknown")) in
  obind (text_preview (sn_text sn)) (fun txt =>
  obind (Raw.os_path_basename file_name) (fun f =>
  Ok {| file := f;
        score := Py.round3 (Py.or_zero (sn_score sn));
        text := txt |})))).

Fixpoint extract_loop (sns : list SourceNode) (sources : list SourcePreview)
  : outcome (list SourcePreview) :=
  match sns with
  | [] => Ok sources
  | sn :: rest =>
      obind (extract_one sn) (fun s => extract_loop rest (sources ++ [s]))
  end.

(** [CVScreenerRAG._extract_sources]:
    [for sn in getattr(response, "source_nodes", []) or []: ...]. *)
Definition _extract_sources (response : Response) : outcome (list SourcePreview) :=
  extract_loop (default [] (source_nodes response)) [].

(** *** Closed forms

    The definitions below say in one expression what the loop above
    computes for a node; [extract_one_ok] proves that it does. *)

(** What a node offers under a metadata key: [None] when the node has no
    metadata, when the key is absent and when it is bound to [None]. *)
Definition meta_lookup (sn : SourceNode) (k : string) : option Py.str :=
  default None (default ∅ (sn_metadata sn) !! k).

(** A node names no file when neither key holds a non-empty string. *)
Definition names_no_file (sn : SourceNode) : bool :=
  negb (Py.truthy_opt (meta_lookup sn "file_path"))
  && negb (Py.truthy_opt (meta_lookup sn "file_name")).

(** The source reference of a node: its [file_path], else its
    [file_name], else ["Unknown"]. *)
Definition source_ref (sn : SourceNode) : Py.str :=
  if Py.truthy_opt (meta_lookup sn "file_path")
  then default [] (meta_lookup sn "file_path")
  else if Py.truthy_opt (meta_lookup sn "file_name")
  then default [] (meta_lookup sn "file_name")
  else Py.lit "Unknown".

(** The preview of a node text once the guards have replaced [None]. *)
Definition preview_of (t : option Py.str) : Py.str :=
  with_marker (Py.strip (take 200 (default [] t))).

(** The record one node is projected to. *)
Definition project (sn : SourceNode) : SourcePreview :=
  {| file := Py.basename (source_ref sn);
     score := Py.round3 (Py.or_zero (sn_score sn));
     text := preview_of (sn_text sn) |}.

(** [f] is the base name of the path [p]: what follows its last slash. *)
Definition base_name_of (p f : Py.str) : Prop :=
  exists dir, p = dir ++ f /\ (Py.slash ∉ f)
              /\ (dir = [] \/ last dir = Some Py.slash).

(** [y] is [x] rounded to 3 decimal places. *)
Definition rounded3 (x y : Q) : Prop :=
  exists m : Z, (y == m # 1000)%Q /\ (Qabs (x - y) <= 1 # 2000)%Q.

(** An evidence entry for a node: a dict with exactly the keys [file],
    [score] and [text], holding the base name of the node's source
    reference, its score rounded (0.0 when it has none) and its preview. *)
Definition evidence_for (sn : SourceNode) (d : gmap string pyval) : Prop :=
  dom d = {[ "file"%string; "score"%string; "text"%string ]}
  /\ exists f sc,
      d !! "file"%string = Some (VStr f)
      /\ d !! "score"%string = Some (VFloat sc)
      /\ d !! "text"%string = Some (VStr (preview_of (sn_text sn)))
      /\ base_name_of (source_ref sn) f
      /\ match sn_score sn with
         | Some x => rounded3 x sc
         | None => sc = 0%Q
         end.

(** A string that neither begins nor ends with white space. *)
Definition trimmed (s : Py.str) : Prop :=
  match head s with Some c => Py.isspace c = false | None => True end
  /\ match last s with Some c => Py.isspace c = false | None => True end.

Definition blank (s : Py.str) : Prop := Forall (fun c => Py.isspace c = true) s.

(** ** The process: global settings, the outside world, the calls made *)

(** [LlamaOpenAI(model=...)], [OpenAIEmbedding(model=...)] and
    [SentenceSplitter.from_defaults(chunk_size=..., chunk_overlap=...)],
    each kept as the arguments it was built from. *)
Record LlamaOpenAI : Type := { llm_model_name : Py.str }.
Record OpenAIEmbedding : Type := { embed_model_name : Py.str }.
Record SentenceSplitter : Type := { chunk_size : Z; chunk_overlap : Z }.

(** The three attributes of LlamaIndex's global [Settings] that the
    constructor assigns; [None] while an attribute was never assigned. *)
Record Settings : Type := {
  llm : option LlamaOpenAI;
  embed_model : option OpenAIEmbedding;
  node_parser : option SentenceSplitter;
}.

(** The query engine [index.as_query_engine(...)] returns, kept as the
    index it was asked of, the keyword arguments it was given and the
    global settings in force when it was built. *)
Record QueryEngine (Index : Type) : Type := {
  qe_index : Index;
  similarity_top_k : Z;
  response_mode : option Py.str;
  text_qa_template : option Py.str;
  built_under : Settings;
}.
Arguments qe_index {Index} _.
Arguments built_under {Index} _.
Arguments similarity_top_k {Index} _.
Arguments response_mode {Index} _.
Arguments text_qa_template {Index} _.

(** The dependencies.  Every call reads and may change the [World] (the
    file system, the OpenAI services, LlamaIndex's own objects), sees the
    global [Settings] where LlamaIndex reads them, and returns or raises.
    The three constructors [__init__] calls return nothing here: when one
    returns, the object it built is the record of its arguments. *)
Class Library : Type := {
  World : Type;
  Index : Type;
  StorageContext : Type;
  Document : Type;
  LlamaOpenAI_new : Py.str -> World -> outcome unit * World;
  OpenAIEmbedding_new : Py.str -> World -> outcome unit * World;
  SentenceSplitter_from_defaults : Z -> Z -> World -> outcome unit * World;
  os_path_exists : Py.str -> World -> bool;
  StorageContext_from_defaults :
    Py.str -> World -> outcome StorageContext * World;
  load_index_from_storage :
    StorageContext -> Settings -> World -> outcome Index * World;
  SimpleDirectoryReader_load_data :
    Py.str -> list Py.str -> World -> outcome (list Document) * World;
  VectorStoreIndex_from_documents :
    list Document -> Settings -> World -> outcome Index * World;
  storage_context_persist :
    Index -> Py.str -> World -> outcome unit * World;
  query_engine_query :
    QueryEngine Index -> Py.str -> Settings -> World -> outcome Response * World;
}.

Section Pipeline.

Context {L : Library}.

(** One record per call on the stored index, the documents, an engine
    or the page, in the order made.  Building an object (the three
    constructors of [__init__], [PromptTemplate], [as_query_engine]) is
    not recorded. *)
Inductive Event : Type :=
| EvPathExists (p : Py.str)
| EvStorageContext (p : Py.str)
| EvLoadIndex (sc : StorageContext) (cfg : Settings)
| EvLoadData (dir : Py.str) (required_exts : list Py.str)
| EvFromDocuments (docs : list Document) (cfg : Settings)
| EvPersist (idx : Index) (p : Py.str)
| EvEngineQuery (qe : QueryEngine Index) (question : Py.str) (cfg : Settings)
| EvStatus (label state : Py.str)
| EvStError (msg : Py.str)
| EvStMarkdown (body : Py.str).

Record Proc : Type := {
  settings : Settings;
  world : World;
  calls : list Event;
}.

(** An instance of [CVScreenerRAG]. *)
Record Rag : Type := {
  cvs_dir : Py.str;
  persist_dir : Py.str;
  top_k : Z;
  index : option Index;
  query_engine : option (QueryEngine Index);
}.

Record State : Type := {
  self : Rag;
  proc : Proc;
}.

(** A method body: it runs on [self] and the process, returns or raises,
    and what it assigned before raising stays assigned. *)
Definition M (A : Type) : Type := State -> outcome A * State.

Definition ret {A} (a : A) : M A := fun s => (Ok a, s).

Definition raise {A} (e : exn) : M A := fun s => (Raised e, s).

Definition bind {A B} (m : M A) (k : A -> M B) : M B :=
  fun s =>
    match m s with
    | (Ok a, s') => k a s'
    | (Raised e, s') => (Raised e, s')
    end.

Notation "x <- c ;; k" := (bind c (fun x => k))
  (at level 100, c at next level, right associativity).
Notation "c ;;; k" := (bind c (fun _ => k))
  (at level 100, right associativity).

Definition get_self : M Rag := fun s => (Ok (self s), s).

Definition set_self (f : Rag -> Rag) : M unit :=
  fun s => (Ok tt, {| self := f (self s); proc := proc s |}).

Definition log (ev : Event) (p : Proc) : Proc :=
  {| settings := settings p; world := world p; calls := calls p ++ [ev] |}.

(** A call into a dependency: it is recorded, runs on the world with the
    settings of the moment, and its exception, if any, propagates. *)
Definition call {X} (ev : Settings -> Event)
    (f : Settings -> World -> outcome X * World) : M X :=
  fun s =>
    let p := proc s in
    let r := f (settings p) (world p) in
    (fst r, {| self := self s;
               proc := {| settings := settings p; world := snd r;
                          calls := calls p ++ [ev (settings p)] |} |}).

Definition lift {X} (o : outcome X) : M X := fun s => (o, s).

Definition set_index (i : Index) (r : Rag) : Rag :=
  {| cvs_dir := cvs_dir r; persist_dir := persist_dir r; top_k := top_k r;
     index := Some i; query_engine := query_engine r |}.

Definition set_query_engine (qe : QueryEngine Index) (r : Rag) : Rag :=
  {| cvs_dir := cvs_dir r; persist_dir := persist_dir r; top_k := top_k r;
     index := index r; query_engine := Some qe |}.

(** [self.index.as_query_engine(...)]: building an engine is taken to
    return, and the engine is the record of what it was built from, so
    nothing is added to the log; on [None] the attribute lookup raises. *)
Definition as_query_engine (i : option Index) (tmpl : option Py.str) (k : Z)
    (mode : option Py.str) : M (QueryEngine Index) :=
  match i with
  | Some idx =>
      fun s =>
        (Ok {| qe_index := idx; similarity_top_k := k;
               response_mode := mode; text_qa_template := tmpl;
               built_under := settings (proc s) |}, s)
  | None =>
      raise (AttributeError
               (Py.lit "'NoneType' object has no attribute 'as_query_engine'"))
  end.

(** *** [CVScreenerRAG.__init__] *)

Record InitArgs : Type := {
  a_cvs_dir : Py.str;
  a_persist_dir : Py.str;
  a_llm_model : Py.str;
  a_embed_model : Py.str;
  a_chunk_size : Z;
  a_chunk_overlap : Z;
  a_top_k : Z;
}.

(** [os.getenv(name, fallback)] on the environment of the process. *)
Definition os_getenv (environ : gmap string Py.str) (name : string)
    (fallback : Py.str) : Py.str :=
  default fallback (environ !! name).

Definition DEFAULT_LLM_MODEL (environ : gmap string Py.str) : Py.str :=
  os_getenv environ "OPENAI_LLM_MODEL" (Py.lit "gpt-4o").

Definition DEFAULT_EMBED_MODEL (environ : gmap string Py.str) : Py.str :=
  os_getenv environ "OPENAI_EMBED_MODEL" (Py.lit "text-embedding-3-small").

(** The default values of the parameters of [__init__]. *)
Definition default_args (environ : gmap string Py.str) : InitArgs :=
  {| a_cvs_dir := Py.lit "cvs";
     a_persist_dir := Py.lit "data/vector_store";
     a_llm_model := DEFAULT_LLM_MODEL environ;
     a_embed_model := DEFAULT_EMBED_MODEL environ;
     a_chunk_size := 512;
     a_chunk_overlap := 50;
     a_top_k := 5 |}.

(** The settings [__init__] leaves behind when it returns. *)
Definition settings_of (a : InitArgs) : Settings :=
  {| llm := Some {| llm_model_name := a_llm_model a |};
     embed_model := Some {| embed_model_name := a_embed_model a |};
     node_parser := Some {| chunk_size := a_chunk_size a;
                            chunk_overlap := a_chunk_overlap a |} |}.

(** The instance a constructor that returns leaves: the three
    attributes from the arguments, no index, no engine. *)
Definition fresh_instance (a : InitArgs) : Rag :=
  {| cvs_dir := a_cvs_dir a; persist_dir := a_persist_dir a;
     top_k := a_top_k a; index := None; query_engine := None |}.

Definition with_world (w : World) (p : Proc) : Proc :=
  {| settings := settings p; world := w; calls := calls p |}.

(** [Settings.llm = x], [Settings.embed_model = x] and
    [Settings.node_parser = x]. *)
Definition assign_llm (x : LlamaOpenAI) (p : Proc) : Proc :=
  {| settings := {| llm := Some x; embed_model := embed_model (settings p);
                    node_parser := node_parser (settings p) |};
     world := world p; calls := calls p |}.

Definition assign_embed_model (x : OpenAIEmbedding) (p : Proc) : Proc :=
  {| settings := {| llm := llm (settings p); embed_model := Some x;
                    node_parser := node_parser (settings p) |};
     world := world p; calls := calls p |}.

Definition assign_node_parser (x : SentenceSplitter) (p : Proc) : Proc :=
  {| settings := {| llm := llm (settings p);
                    embed_model := embed_model (settings p);
                    node_parser := Some x |};
     world := world p; calls := calls p |}.

(** [CVScreenerRAG(...)]: the three objects are built and assigned to
    [Settings] one after the other.  When a constructor of the library
    raises, so does [__init__]: there is no instance, and the settings
    assigned before stay assigned. *)
Definition __init__ (a : InitArgs) (p : Proc) : outcome Rag * Proc :=
  match LlamaOpenAI_new (a_llm_model a) (world p) with
  | (Raised e, w) => (Raised e, with_world w p)
  | (Ok _, w) =>
      let p1 := assign_llm {| llm_model_name := a_llm_model a |}
                  (with_world w p) in
      match OpenAIEmbedding_new (a_embed_model a) (world p1) with
      | (Raised e, w) => (Raised e, with_world w p1)
      | (Ok _, w) =>
          let p2 := assign_embed_model {| embed_model_name := a_embed_model a |}
                      (with_world w p1) in
          match SentenceSplitter_from_defaults
                  (a_chunk_size a) (a_chunk_overlap a) (world p2) with
          | (Raised e, w) => (Raised e, with_world w p2)
          | (Ok _, w) =>
              (Ok (fresh_instance a),
               assign_node_parser
                 {| chunk_size := a_chunk_size a;
                    chunk_overlap := a_chunk_overlap a |} (with_world w p2))
          end
      end
  end.

(** *** [CVScreenerRAG.load_or_create_index] *)

Definition load_or_create_index : M unit :=
  r <- get_self ;;
  ex <- call (fun _ => EvPathExists (persist_dir r))
             (fun _ w => (Ok (os_path_exists (persist_dir r) w), w)) ;;
  (if ex : bool then
     storage_context <- call (fun _ => EvStorageContext (persist_dir r))
                             (fun _ => StorageContext_from_defaults (persist_dir r)) ;;
     i <- call (EvLoadIndex storage_context)
               (load_index_from_storage storage_context) ;;
     set_self (set_index i)
   else
     documents <- call (fun _ => EvLoadData (cvs_dir r) [Py.lit ".pdf"])
                       (fun _ => SimpleDirectoryReader_load_data
                                   (cvs_dir r) [Py.lit ".pdf"]) ;;
     i <- call (EvFromDocuments documents)
               (VectorStoreIndex_from_documents documents) ;;
     set_self (set_index i) ;;;
     r1 <- get_self ;;
     call (fun _ => EvPersist i (persist_dir r1))
          (fun _ => storage_context_persist i (persist_dir r1))) ;;;
  r2 <- get_self ;;
  qe <- as_query_engine (index r2) None (top_k r2) (Some (Py.lit "compact")) ;;
  set_self (set_query_engine qe).

(** The engine [load_or_create_index] prepares over an index. *)
Definition default_engine (i : Index) (r : Rag) (cfg : Settings)
  : QueryEngine Index :=
  {| qe_index := i; similarity_top_k := top_k r;
     response_mode := Some (Py.lit "compact"); text_qa_template := None;
     built_under := cfg |}.

(** The instance once index [i] is in place and its engine is prepared. *)
Definition ready_with (i : Index) (r : Rag) (cfg : Settings) : Rag :=
  set_query_engine (default_engine i r cfg) (set_index i r).

(** The process after the calls [evs], the last of which left world [w]. *)
Definition after_calls (p : Proc) (evs : list Event) (w : World) : Proc :=
  {| settings := settings p; world := w; calls := calls p ++ evs |}.

(** *** [CVScreenerRAG.query] and [CVScreenerRAG.custom_query] *)

Definition not_loaded : exn :=
  ValueError (Py.lit "Index not loaded! Call load_or_create_index() first").

(** The evidence dicts: [[s.__dict__ for s in sources]]. *)
Definition Evidence : Type := list (gmap string pyval).

(** [engine.query(question)] followed by the packaging both methods share. *)
Definition run_engine (qe : QueryEngine Index) (question : Py.str)
  : M (Py.str * Evidence) :=
  response <- call (EvEngineQuery qe question) (query_engine_query qe question) ;;
  sources <- lift (_extract_sources response) ;;
  ret (response_str response, map to_dict sources).

Definition query (question : Py.str) : M (Py.str * Evidence) :=
  r <- get_self ;;
  match query_engine r with
  | None => raise not_loaded
  | Some qe => run_engine qe question
  end.

Definition nl : Py.str := [10%N].

(** The f-string of [custom_query]: the caller's prompt followed by the
    fixed context and question frame.  [PromptTemplate(...)] around it is
    taken to return, and the template is kept as this text. *)
Definition qa_prompt (system_prompt : Py.str) : Py.str :=
  system_prompt ++ nl ++ nl
  ++ Py.lit "Context information is below:" ++ nl
  ++ Py.lit "---------------------" ++ nl
  ++ Py.lit "{context_str}" ++ nl
  ++ Py.lit "---------------------" ++ nl
  ++ Py.lit "Given the context information and not prior knowledge," ++ nl
  ++ Py.lit "answer the query." ++ nl
  ++ Py.lit "Query: {query_str}" ++ nl
  ++ Py.lit "Answer:".

Definition custom_query (question : Py.str) (system_prompt : option Py.str)
  : M (Py.str * Evidence) :=
  r <- get_self ;;
  match query_engine r with
  | None => raise not_loaded
  | Some default_engine =>
      if Py.truthy_opt system_prompt then
        r1 <- get_self ;;
        qe <- as_query_engine (index r1)
                (Some (qa_prompt (default [] system_prompt))) (top_k r1) None ;;
        run_engine qe question
      else
        run_engine default_engine question
  end.

(** *** The methods as steps of an instance's life *)

(** The public calls on an instance, and the construction of another
    instance in the same process, whether it returns or raises. *)
Inductive Method : Type :=
| CallLoad
| CallQuery (question : Py.str)
| CallCustomQuery (question : Py.str) (system_prompt : option Py.str)
| OtherInit (a : InitArgs).

Definition step (m : Method) (s : State) : State :=
  match m with
  | CallLoad => snd (load_or_create_index s)
  | CallQuery q => snd (query q s)
  | CallCustomQuery q sp => snd (custom_query q sp s)
  | OtherInit a => {| self := self s; proc := snd (__init__ a (proc s)) |}
  end.

(** The states an instance can be in once its construction with [a]
    in process [p0] has returned. *)
Inductive reachable (a : InitArgs) (p0 : Proc) : State -> Prop :=
| reach_init r p :
    __init__ a p0 = (Ok r, p) -> reachable a p0 {| self := r; proc := p |}
| reach_step s m : reachable a p0 s -> reachable a p0 (step m s).

(** The engine an event queried, if it is a query. *)
Definition queried_engine (ev : Event) : option (QueryEngine Index) :=
  match ev with
  | EvEngineQuery qe _ _ => Some qe
  | _ => None
  end.

(** The settings a call was made under, for the calls that read them. *)
Definition event_settings (ev : Event) : option Settings :=
  match ev with
  | EvLoadIndex _ cfg | EvFromDocuments _ cfg | EvEngineQuery _ _ cfg => Some cfg
  | _ => None
  end.

(** An event made under the settings [cfg], if it reads the settings. *)
Definition under (cfg : Settings) (ev : Event) : Prop :=
  match event_settings ev with Some c => c = cfg | None => True end.

(** An event that searches with [similarity_top_k = k], if it is a query. *)
Definition searches_with (k : Z) (ev : Event) : Prop :=
  match queried_engine ev with
  | Some qe => similarity_top_k qe = k
  | None => True
  end.

(** The engine [custom_query] builds for a prompt. *)
Definition custom_engine (i : Index) (r : Rag) (cfg : Settings)
    (system_prompt : Py.str) : QueryEngine Index :=
  {| qe_index := i; similarity_top_k := top_k r;
     response_mode := None;
     text_qa_template := Some (qa_prompt system_prompt);
     built_under := cfg |}.

(** ** The chat input handler of [app.py] *)

(** A chat message; its time stamp is not kept. *)
Record Message : Type := {
  role : Py.str;
  content : Py.str;
  sources : option Evidence;
}.

(** [st.session_state] and the process it lives in. *)
Record App : Type := {
  rag : Rag;
  messages : list Message;
  app_proc : Proc;
}.

Definition ui (ev : Event) (a : App) : App :=
  {| rag := rag a; messages := messages a; app_proc := log ev (app_proc a) |}.

Definition append_message (m : Message) (a : App) : App :=
  {| rag := rag a; messages := messages a ++ [m]; app_proc := app_proc a |}.

Definition after_query (s : State) (a : App) : App :=
  {| rag := self s; messages := messages a; app_proc := proc s |}.

Definition failure_answer : Py.str :=
  Py.lit "I couldn't complete that query due to an internal error.".

(** The text of [st.error(f"❌ {e}")]. *)
Definition error_text (e : exn) : Py.str := [10060%N; 32%N] ++ exn_str e.

(** After the [try]: the answer is shown, the assistant message is saved.
    The expander that lists the sources only lays them out and is not
    recorded. *)
Definition show_and_save (answer : Py.str) (srcs : Evidence) (a : App) : App :=
  append_message {| role := Py.lit "assistant"; content := answer;
                    sources := Some srcs |}
                 (ui (EvStMarkdown answer) a).

Definition user_message (q : Py.str) : Message :=
  {| role := Py.lit "user"; content := q; sources := None |}.

Definition assistant_message (answer : Py.str) (srcs : Evidence) : Message :=
  {| role := Py.lit "assistant"; content := answer; sources := Some srcs |}.

(** The block under [if user_input:]. *)
Definition on_chat_input (user_input : option Py.str) (a : App)
  : outcome unit * App :=
  if Py.truthy_opt user_input then
    let q := default [] user_input in
    let a1 := append_message {| role := Py.lit "user"; content := q;
                                sources := None |} a in
    let a2 := ui (EvStMarkdown q) a1 in
    let a3 := ui (EvStatus (Py.lit "Searching through CVs" ++ [8230%N])
                           (Py.lit "running")) a2 in
    match query q {| self := rag a3; proc := app_proc a3 |} with
    | (Ok (answer, srcs), s) =>
        let a4 := ui (EvStatus (Py.lit "Found relevant results")
                               (Py.lit "complete")) (after_query s a3) in
        (Ok tt, show_and_save answer srcs a4)
    | (Raised e, s) =>
        if is_Exception e then
          let a4 := ui (EvStatus (Py.lit "Error") (Py.lit "error"))
                       (after_query s a3) in
          let a5 := ui (EvStError (error_text e)) a4 in
          (Ok tt, show_and_save failure_answer [] a5)
        else (Raised e, after_query s a3)
    end
  else (Ok tt, a).

(** *** The rest of [app.py] and [rag.py] *)

(** The snippet [app.py] shows under a source [src]:
    [(src.get('text', '') or '')[:160]
     + ('…' if len(src.get('text', '')) > 160 else '')].
    A value that is not a [str] cannot be sliced or measured. *)
Definition shown_text (src : gmap string pyval) : outcome Py.str :=
  let v := default (VStr []) (src !! "text"%string) in
  obind (match v with
         | VStr t => Ok (take 160 t)
         | VFloat x =>
             if Qeq_bool x 0 then Ok []
             else Raised (TypeError (Py.lit "'float' object is not subscriptable"))
         end) (fun shown =>
  obind (match v with
         | VStr t => Ok (length t)
         | VFloat _ =>
             Raised (TypeError (Py.lit "object of type 'float' has no len()"))
         end) (fun n =>
  Ok (shown ++ if (160 <? n)%nat then [8230%N] else []))).


(** The questions of [test_rag]. *)
Definition test_queries : list Py.str :=
  [Py.lit "Who has Python experience?";
   Py.lit "Which candidates worked at Google?";
   Py.lit "Find someone with machine learning skills";
   Py.lit "Who graduated from University of Jamaica?"].

(** [for q in test_queries: answer, sources = rag.query(q); ...]: what
    follows the query only prints. *)
Fixpoint query_each (qs : list Py.str) : M unit :=
  match qs with
  | [] => ret tt
  | q :: rest => (_ <- query q ;; query_each rest)
  end.

(** [test_rag] of [rag.py]; when the constructor raises there is no
    instance, and the state shows the one that was to be. *)
Definition test_rag (environ : gmap string Py.str) (p : Proc)
  : outcome unit * State :=
  match __init__ (default_args environ) p with
  | (Raised e, p1) =>
      (Raised e, {| self := fresh_instance (default_args environ); proc := p1 |})
  | (Ok rag0, p1) =>
      (load_or_create_index ;;; query_each test_queries)
        {| self := rag0; proc := p1 |}
  end.

(** Successive runs of the script of [app.py], one chat input each; a run
    that raises ends the session. *)
Fixpoint chat_inputs (inputs : list (option Py.str)) (a : App)
  : outcome unit * App :=
  match inputs with
  | [] => (Ok tt, a)
  | u :: rest =>
      match on_chat_input u a with
      | (Ok _, a') => chat_inputs rest a'
      | (Raised e, a') => (Raised e, a')
      end
  end.

(** A history made of complete turns: a user message, then the
    assistant's message with its sources. *)
Inductive turns : list Message -> Prop :=
| turns_nil : turns []
| turns_cons q answer srcs rest :
    turns rest ->
    turns (user_message q :: assistant_message answer srcs :: rest).

(** The calls that leave the program for LlamaIndex or the file system,
    as opposed to those that draw the page. *)
Definition is_library_call (ev : Event) : bool :=
  match ev with
  | EvStatus _ _ | EvStError _ | EvStMarkdown _ => false
  | _ => true
  end.

(** The calls that read or write the stored index or the documents. *)
Definition is_storage_call (ev : Event) : bool :=
  match ev with
  | EvPathExists _ | EvStorageContext _ | EvLoadIndex _ _ | EvLoadData _ _
  | EvFromDocuments _ _ | EvPersist _ _ => true
  | _ => false
  end.

(** The calls on an instance, as opposed to a construction. *)
Definition is_method (m : Method) : bool :=
  match m with OtherInit _ => false | _ => true end.

(** The calls that ask an engine a question. *)
Definition is_engine_query (ev : Event) : bool :=
  match ev with EvEngineQuery _ _ _ => true | _ => false end.

(** Every question of [qs], asked in order from state [s], returned. *)
Fixpoint all_returned (qs : list Py.str) (s : State) : Prop :=
  match qs with
  | [] => True
  | q :: rest =>
      (exists r, fst (query q s) = Ok r) /\ all_returned rest (snd (query q s))
  end.

(** Several public calls in a row. *)
Fixpoint steps (ms : list Method) (s : State) : State :=
  match ms with
  | [] => s
  | m :: rest => steps rest (step m s)
  end.

End Pipeline.

(** ** A small library to run the pipeline on

    One directory on disk, documents as strings, indexes as the list of
    their documents; the query engine echoes the question with one source
    node, and raises on the question [fail]. *)

Module Demo.

Definition node : SourceNode :=
  {| sn_metadata := Some {[ "file_path"%string := Some (Py.lit "/data/cvs/cv_007.pdf") ]};
     sn_text := Some (Py.lit "  Python developer, 5 years.  ");
     sn_score := Some (8123456 # 10000000)%Q |}.

Definition bare_node : SourceNode :=
  {| sn_metadata := None; sn_text := None; sn_score := None |}.

Definition answer_to (q : Py.str) : Response :=
  {| response_str := Py.lit "Re: " ++ q; source_nodes := Some [node; bare_node] |}.

Definition api_error : exn := LibraryError (Py.lit "APIError") (Py.lit "boom").

Definition str_eqb (a b : Py.str) : bool := bool_decide (a = b).

Definition overlap_error : exn :=
  ValueError (Py.lit "Got a larger chunk overlap than chunk size, should be smaller.").

#[local] Instance lib : Library := {|
  World := bool;
  Index := list Py.str;
  StorageContext := Py.str;
  Document := Py.str;
  LlamaOpenAI_new := fun _ w => (Ok tt, w);
  OpenAIEmbedding_new := fun _ w => (Ok tt, w);
  SentenceSplitter_from_defaults := fun size overlap w =>
    if size <? overlap then (Raised overlap_error, w) else (Ok tt, w);
  os_path_exists := fun _ w => w;
  StorageContext_from_defaults := fun p w => (Ok p, w);
  load_index_from_storage := fun sc _ w =>
    if str_eqb sc (Py.lit "broken") then (Raised api_error, w)
    else (Ok [sc], w);
  SimpleDirectoryReader_load_data := fun d _ w => (Ok [d], w);
  VectorStoreIndex_from_documents := fun docs _ w => (Ok docs, w);
  storage_context_persist := fun _ _ _ => (Ok tt, true);
  query_engine_query := fun _ q _ w =>
    if str_eqb q (Py.lit "fail") then (Raised api_error, w)
    else (Ok (answer_to q), w);
|}.

Definition fresh : Proc :=
  {| settings := {| llm := None; embed_model := None; node_parser := None |};
     world := false; calls := [] |}.

Definition on_disk : Proc :=
  {| settings := settings fresh; world := true; calls := [] |}.

Definition args : InitArgs := default_args ∅.

(** A new instance on an empty disk, and the same after a first start. *)
Definition start : State :=
  {| self := fresh_instance args; proc := snd (__init__ args fresh) |}.

Definition ready : State := snd (load_or_create_index start).

(** The index that start builds. *)
Definition idx : @Index lib := [Py.lit "cvs"].

(** The chat application holding that instance. *)
Definition app : App :=
  {| rag := self ready; messages := []; app_proc := proc ready |}.

(** An instance whose persist directory exists but does not load. *)
Definition broken_args : InitArgs :=
  {| a_cvs_dir := Py.lit "cvs"; a_persist_dir := Py.lit "broken";
     a_llm_model := Py.lit "gpt-4o";
     a_embed_model := Py.lit "text-embedding-3-small";
     a_chunk_size := 512; a_chunk_overlap := 50; a_top_k := 3 |}.

Definition broken : State :=
  {| self := fresh_instance broken_args;
     proc := snd (__init__ broken_args on_disk) |}.

(** The arguments of a second instance, with other models and chunks. *)
Definition other_args : InitArgs :=
  {| a_cvs_dir := Py.lit "more_cvs"; a_persist_dir := Py.lit "data/other_store";
     a_llm_model := Py.lit "gpt-4o-mini";
     a_embed_model := Py.lit "text-embedding-3-large";
     a_chunk_size := 256; a_chunk_overlap := 20; a_top_k := 3 |}.

(** Arguments the sentence splitter refuses. *)
Definition bad_args : InitArgs :=
  {| a_cvs_dir := Py.lit "cvs"; a_persist_dir := Py.lit "data/vector_store";
     a_llm_model := Py.lit "gpt-4o-mini";
     a_embed_model := Py.lit "text-embedding-3-large";
     a_chunk_size := 100; a_chunk_overlap := 200; a_top_k := 5 |}.

(** A node that only has a [file_name], one whose path names a
    directory, and one with a long text. *)
Definition named_meta : gmap string (option Py.str) :=
  {[ "file_path"%string := Some []; "file_name"%string := Some (Py.lit "cvs/cv_001.pdf") ]}.

Definition named_node : SourceNode :=
  {| sn_metadata := Some named_meta; sn_text := Some (Py.lit "Java");
     sn_score := Some (1 # 2)%Q |}.

Definition path_meta : gmap string (option Py.str) :=
  {[ "file_path"%string := Some (Py.lit "/data/cvs/cv_007.pdf");
     "file_name"%string := Some (Py.lit "other.pdf") ]}.

Definition path_node : SourceNode :=
  {| sn_metadata := Some path_meta; sn_text := Some (replicate 300 97%N);
     sn_score := Some (9 # 10)%Q |}.

Definition dir_node : SourceNode :=
  {| sn_metadata := Some {[ "file_path"%string := Some (Py.lit "data/cvs/") ]};
     sn_text := Some (replicate 250 32%N ++ Py.lit "late text");
     sn_score := None |}.

(** The chat application before any index was loaded. *)
Definition unready_app : App :=
  {| rag := self start; messages := []; app_proc := proc start |}.

(** The same library with an engine that is interrupted at every
    question, and the chat application on it. *)
Definition interrupt : exn := BaseOnly (Py.lit "KeyboardInterrupt").

Definition interrupted_lib : Library := {|
  World := bool;
  Index := list Py.str;
  StorageContext := Py.str;
  Document := Py.str;
  LlamaOpenAI_new := fun _ w => (Ok tt, w);
  OpenAIEmbedding_new := fun _ w => (Ok tt, w);
  SentenceSplitter_from_defaults := fun _ _ w => (Ok tt, w);
  os_path_exists := fun _ w => w;
  StorageContext_from_defaults := fun p w => (Ok p, w);
  load_index_from_storage := fun sc _ w => (Ok [sc], w);
  SimpleDirectoryReader_load_data := fun d _ w => (Ok [d], w);
  VectorStoreIndex_from_documents := fun docs _ w => (Ok docs, w);
  storage_context_persist := fun _ _ _ => (Ok tt, true);
  query_engine_query := fun _ _ _ w => (Raised interrupt, w);
|}.

Definition interrupted_start : @State interrupted_lib :=
  snd (@load_or_create_index interrupted_lib
         (@Build_State interrupted_lib
            (@fresh_instance interrupted_lib args)
            (snd (@__init__ interrupted_lib args
                    (@Build_Proc interrupted_lib (settings fresh) false []))))).

Definition interrupted_app : @App interrupted_lib :=
  @Build_App interrupted_lib (self interrupted_start) []
    (proc interrupted_start).

End Demo.

(** ** Properties of the string helpers *)

Section Strings.

Lemma lstrip_split (s : Py.str) :
  exists l, s = l ++ Py.lstrip s /\ blank l
            /\ match head (Py.lstrip s) with
               | Some c => Py.isspace c = false
               | None => True
               end.
Proof.
  induction s as [|c r IH]; simpl.
  - exists []. repeat split; constructor.
  - destruct (Py.isspace c) eqn:Hc.
    + destruct IH as (l & Hl & Hb & Hh).
      exists (c :: l). split; [simpl; congruence|].
      split; [constructor; assumption | exact Hh].
    + exists []. repeat split; [constructor | exact Hc].
Qed.

(** [strip] removes a blank prefix and a blank suffix, and what is left is
    trimmed. *)
Lemma strip_split (s : Py.str) :
  exists l r, s = l ++ Py.strip s ++ r /\ blank l /\ blank r
              /\ trimmed (Py.strip s).
Proof.
  destruct (lstrip_split s) as (l & Hl & Hbl & Hhead).
  destruct (lstrip_split (reverse (Py.lstrip s))) as (r' & Hr & Hbr & Hlast).
  exists l, (reverse r').
  assert (Hmid : Py.lstrip s = Py.strip s ++ reverse r').
  { unfold Py.strip, Py.rstrip. rewrite <- reverse_app, <- Hr.
    symmetry. apply reverse_involutive. }
  split; [congruence|].
  split; [assumption|].
  split; [apply Forall_reverse; assumption|].
  split.
  - rewrite Hmid in Hhead. destruct (Py.strip s) as [|c b]; simpl in *; auto.
  - unfold Py.strip, Py.rstrip. rewrite last_reverse. exact Hlast.
Qed.

Lemma rfind_slash_range (p : Py.str) :
  -1 <= Py.rfind_slash p < Z.of_nat (length p).
Proof.
  induction p as [|c r IH]; simpl; [lia|].
  destruct (0 <=? Py.rfind_slash r) eqn:Hi; [lia|].
  destruct (c =? Py.slash)%N; lia.
Qed.

Lemma rfind_slash_none (p : Py.str) :
  Py.rfind_slash p = -1 -> Py.slash ∉ p.
Proof.
  induction p as [|c r IH]; simpl; intros H.
  - apply not_elem_of_nil.
  - pose proof (rfind_slash_range r) as Hr.
    destruct (0 <=? Py.rfind_slash r) eqn:Hi; [apply Z.leb_le in Hi; lia|].
    apply Z.leb_gt in Hi.
    destruct (c =? Py.slash)%N eqn:Hc; [discriminate|].
    apply N.eqb_neq in Hc.
    apply not_elem_of_cons. split; [congruence|]. apply IH. lia.
Qed.

Lemma rfind_slash_found (p : Py.str) (i : Z) :
  Py.rfind_slash p = i -> 0 <= i ->
  p !! Z.to_nat i = Some Py.slash /\ Py.slash ∉ drop (S (Z.to_nat i)) p.
Proof.
  revert i. induction p as [|c r IH]; simpl; intros i H Hi; [lia|].
  destruct (0 <=? Py.rfind_slash r) eqn:Hr.
  - apply Z.leb_le in Hr.
    destruct (IH (Py.rfind_slash r) eq_refl Hr) as [Hat Hafter].
    subst i. replace (Z.to_nat (Py.rfind_slash r + 1))
      with (S (Z.to_nat (Py.rfind_slash r))) by lia.
    simpl. split; assumption.
  - apply Z.leb_gt in Hr. pose proof (rfind_slash_range r).
    destruct (c =? Py.slash)%N eqn:Hc; [|lia].
    apply N.eqb_eq in Hc. subst i c. simpl. split; [reflexivity|].
    rewrite drop_0. apply rfind_slash_none. lia.
Qed.

(** [basename] is what follows the last slash: the rest of the path is
    empty or ends with a slash, and the name holds none. *)
Lemma basename_split (p : Py.str) :
  exists dir, p = dir ++ Py.basename p
              /\ (Py.slash ∉ Py.basename p)
              /\ (dir = [] \/ last dir = Some Py.slash).
Proof.
  unfold Py.basename.
  exists (take (Z.to_nat (Py.rfind_slash p + 1)) p).
  split; [symmetry; apply take_drop|].
  pose proof (rfind_slash_range p) as Hr.
  destruct (Z.eq_dec (Py.rfind_slash p) (-1)) as [Hn|Hn].
  - rewrite Hn. simpl. split; [|left; reflexivity].
    rewrite drop_0. apply rfind_slash_none; assumption.
  - destruct (rfind_slash_found p _ eq_refl ltac:(lia)) as [Hat Hafter].
    replace (Z.to_nat (Py.rfind_slash p + 1))
      with (S (Z.to_nat (Py.rfind_slash p))) by lia.
    split; [assumption|]. right.
    rewrite last_lookup, length_take.
    rewrite lookup_take_lt by lia.
    replace (pred (S (Z.to_nat (Py.rfind_slash p)) `min` length p))
      with (Z.to_nat (Py.rfind_slash p)) by lia.
    assumption.
Qed.

Lemma round_half_even_near (n : Z) (d : positive) :
  let m := Py.round_half_even n d in
  - Z.pos d <= 2 * (n - m * Z.pos d) <= Z.pos d.
Proof.
  unfold Py.round_half_even.
  pose proof (Z.div_mod n (Z.pos d) ltac:(lia)) as Hdm.
  pose proof (Z.mod_pos_bound n (Z.pos d) ltac:(lia)) as Hb.
  set (f := n / Z.pos d) in *. set (r := n mod Z.pos d) in *.
  destruct (2 * r <? Z.pos d) eqn:H1; [apply Z.ltb_lt in H1; nia|].
  apply Z.ltb_ge in H1.
  destruct (Z.pos d <? 2 * r) eqn:H2;
    [apply Z.ltb_lt in H2; nia | apply Z.ltb_ge in H2].
  destruct (Z.even f); nia.
Qed.

(** [round3] gives a multiple of 1/1000 at most 1/2000 away. *)
Lemma round3_near (x : Q) :
  exists m : Z, (Py.round3 x == m # 1000)%Q
                /\ (Qabs (x - Py.round3 x) <= 1 # 2000)%Q.
Proof.
  exists (Py.round_half_even (Qnum x * 1000) (Qden x)).
  unfold Py.round3. split; [apply Qred_correct|].
  rewrite Qred_correct.
  pose proof (round_half_even_near (Qnum x * 1000) (Qden x)) as H.
  simpl in H.
  set (m := Py.round_half_even (Qnum x * 1000) (Qden x)) in *.
  apply Qabs_Qle_condition.
  destruct x as [n d]. simpl in *.
  unfold Qle, Qminus, Qplus, Qopp; simpl.
  rewrite !Pos2Z.inj_mul. split; nia.
Qed.

End Strings.

(** ** Properties of [_extract_sources] *)

Section Extraction.

Lemma text_preview_ok (t : option Py.str) :
  text_preview t = Ok (preview_of t).
Proof.
  unfold text_preview, preview_of, Py.or_str.
  destruct t as [[|c r]|]; reflexivity.
Qed.

Lemma extract_one_ok (sn : SourceNode) : extract_one sn = Ok (project sn).
Proof.
  unfold extract_one, project, source_ref, meta_lookup.
  rewrite text_preview_ok.
  destruct (sn_metadata sn) as [m|]; simpl.
  - destruct (m !! "file_path"%string) as [[[|c r]|]|]; simpl; try reflexivity;
      destruct (m !! "file_name"%string) as [[[|c' r']|]|]; reflexivity.
  - rewrite !lookup_empty. reflexivity.
Qed.

Lemma extract_loop_ok (sns : list SourceNode) (acc : list SourcePreview) :
  extract_loop sns acc = Ok (acc ++ map project sns).
Proof.
  revert acc. induction sns as [|sn rest IH]; intros acc; simpl.
  - rewrite app_nil_r. reflexivity.
  - rewrite extract_one_ok. simpl. rewrite IH, <- app_assoc. reflexivity.
Qed.

Lemma extract_sources_ok (response : Response) :
  _extract_sources response
  = Ok (map project (default [] (source_nodes response))).
Proof. unfold _extract_sources. apply extract_loop_ok. Qed.

Lemma to_dict_dom (s : SourcePreview) :
  dom (to_dict s) = {[ "file"%string; "score"%string; "text"%string ]}.
Proof.
  unfold to_dict. rewrite !dom_insert_L, dom_singleton_L. set_solver.
Qed.

Lemma to_dict_fields (s : SourcePreview) :
  to_dict s !! "file"%string = Some (VStr (file s))
  /\ to_dict s !! "score"%string = Some (VFloat (score s))
  /\ to_dict s !! "text"%string = Some (VStr (text s)).
Proof. unfold to_dict. repeat split; by simplify_map_eq. Qed.

(** C1, as the code has it: for every retrieved node the text preview is
    the first 200 characters of the node text with the white space at both
    ends removed, followed by the marker ["..."] whenever anything is left
    (whether or not the text was longer than 200 characters), and the
    empty string when nothing is left; it is never longer than 203
    characters. *)
Theorem C1_preview_is_trimmed_prefix_then_marker (sn : SourceNode) :
  exists l body r p,
    take 200 (default [] (sn_text sn)) = l ++ body ++ r
    /\ blank l /\ blank r /\ trimmed body
    /\ extract_one sn = Ok p
    /\ text p = (if Py.truthy body then body ++ ellipsis else [])
    /\ (length (text p) <= 203)%nat.
Proof.
  destruct (strip_split (take 200 (default [] (sn_text sn))))
    as (l & r & Hsplit & Hl & Hr & Htrim).
  exists l, (Py.strip (take 200 (default [] (sn_text sn)))), r, (project sn).
  split; [exact Hsplit|]. split; [exact Hl|]. split; [exact Hr|].
  split; [exact Htrim|]. split; [apply extract_one_ok|].
  split; [reflexivity|].
  apply (f_equal length) in Hsplit.
  rewrite length_take, !length_app in Hsplit.
  simpl. unfold preview_of, with_marker.
  destruct (Py.truthy _); [rewrite length_app|]; simpl; lia.
Qed.

(** C1 as stated fails: a text of three characters is not returned
    verbatim, it gets the marker. *)
Lemma C1_short_text_gets_marker :
  let t := Py.lit "abc" in
  (length t <= 200)%nat
  /\ text_preview (Some t) = Ok (t ++ ellipsis)
  /\ text_preview (Some t) <> Ok t.
Proof. repeat split; [vm_compute; lia | discriminate]. Qed.

(** C10: extraction returns for every response, one preview per node; a
    node that names no file gets the file ["Unknown"], a node without a
    score gets 0.0, and a node whose text is absent or empty gets the empty
    preview. *)
Theorem C10_extract_sources_total (response : Response) :
  exists previews,
    _extract_sources response = Ok previews
    /\ length previews = length (default [] (source_nodes response))
    /\ forall i sn,
         default [] (source_nodes response) !! i = Some sn ->
         exists p,
           previews !! i = Some p
           /\ (names_no_file sn = true -> file p = Py.lit "Unknown")
           /\ (sn_score sn = None -> score p = 0%Q)
           /\ (Py.truthy_opt (sn_text sn) = false -> text p = []).
Proof.
  exists (map project (default [] (source_nodes response))).
  split; [apply extract_sources_ok|].
  split; [apply length_map|].
  intros i sn Hi. exists (project sn).
  split; [change map with (@fmap list _) in *; rewrite list_lookup_fmap, Hi; reflexivity|].
  split; [|split].
  - unfold names_no_file, project, source_ref. simpl. intros H.
    apply andb_true_iff in H as [H1 H2].
    apply negb_true_iff in H1, H2. rewrite H1, H2. reflexivity.
  - intros H. unfold project. simpl. rewrite H. reflexivity.
  - intros H. unfold project, preview_of. simpl.
    destruct (sn_text sn) as [[|c r]|]; [reflexivity|discriminate|reflexivity].
Qed.

Lemma C10_witness :
  exists previews p,
    _extract_sources (Demo.answer_to []) = Ok previews
    /\ previews !! 1%nat = Some p
    /\ file p = Py.lit "Unknown" /\ score p = 0%Q /\ text p = [].
Proof.
  destruct (C10_extract_sources_total (Demo.answer_to []))
    as (previews & Hrun & _ & Hall).
  destruct (Hall 1%nat Demo.bare_node eq_refl) as (p & Hp & Hf & Hs & Ht).
  exists previews, p.
  split; [exact Hrun|]. split; [exact Hp|].
  split; [apply Hf; reflexivity|].
  split; [apply Hs; reflexivity | apply Ht; reflexivity].
Defined.

Lemma rounded3_or_zero (x : Q) : rounded3 x (Py.round3 (Py.or_zero (Some x))).
Proof.
  unfold Py.or_zero. destruct (Qeq_bool x 0) eqn:Hz.
  - apply Qeq_bool_eq in Hz. exists 0. split; [reflexivity|].
    change (Py.round3 0) with 0%Q. rewrite Hz. discriminate.
  - apply round3_near.
Qed.

Lemma project_is_evidence (sn : SourceNode) : evidence_for sn (to_dict (project sn)).
Proof.
  split; [apply to_dict_dom|].
  destruct (to_dict_fields (project sn)) as (Hf & Hs & Ht).
  exists (file (project sn)), (score (project sn)).
  repeat split; try assumption.
  - apply basename_split.
  - simpl. destruct (sn_score sn) as [x|]; [apply rounded3_or_zero | reflexivity].
Qed.

(** The evidence list follows the retrieved nodes, entry by entry. *)
Lemma evidence_follows_nodes (sns : list SourceNode) :
  Forall2 evidence_for sns (map to_dict (map project sns)).
Proof.
  induction sns as [|sn rest IH]; simpl; constructor;
    [apply project_is_evidence | exact IH].
Qed.

End Extraction.

(** ** Properties of the pipeline *)

Section PipelineFacts.

Context {L : Library}.

Ltac run :=
  unfold load_or_create_index, query, custom_query, run_engine, bind, call,
    get_self, set_self, as_query_engine, ret, raise, lift, log,
    after_calls, ready_with, default_engine, custom_engine;
  simpl.

Ltac use H := rewrite H; simpl.

Ltac flat := rewrite <- ?app_assoc; simpl; try reflexivity.

(** C3: when the persist directory exists the index is loaded and nothing
    else is tried: an exception of either loading call is the outcome, the
    instance is left as it was, and no document is read, no index built
    and nothing persisted.  When it does not exist the documents are
    read, the index is built and then persisted, in this order, each call
    made only if the one before returned; the engine is prepared only
    if all of them returned. *)
Theorem C3_load_or_create_index (s : State) :
  let r := self s in
  let p := proc s in
  let dir := persist_dir r in
  let pdf := [Py.lit ".pdf"] in
  (os_path_exists dir (world p) = true ->
     (forall e w,
        StorageContext_from_defaults dir (world p) = (Raised e, w) ->
        load_or_create_index s
        = (Raised e,
           {| self := r;
              proc := after_calls p [EvPathExists dir; EvStorageContext dir] w |}))
     /\ (forall sc w1 e w2,
          StorageContext_from_defaults dir (world p) = (Ok sc, w1) ->
          load_index_from_storage sc (settings p) w1 = (Raised e, w2) ->
          load_or_create_index s
          = (Raised e,
             {| self := r;
                proc := after_calls p [EvPathExists dir; EvStorageContext dir;
                                       EvLoadIndex sc (settings p)] w2 |}))
     /\ (forall sc w1 i w2,
          StorageContext_from_defaults dir (world p) = (Ok sc, w1) ->
          load_index_from_storage sc (settings p) w1 = (Ok i, w2) ->
          load_or_create_index s
          = (Ok tt,
             {| self := ready_with i r (settings p);
                proc := after_calls p [EvPathExists dir; EvStorageContext dir;
                                       EvLoadIndex sc (settings p)] w2 |})))
  /\ (os_path_exists dir (world p) = false ->
     (forall e w,
        SimpleDirectoryReader_load_data (cvs_dir r) pdf (world p) = (Raised e, w) ->
        load_or_create_index s
        = (Raised e,
           {| self := r;
              proc := after_calls p [EvPathExists dir;
                                     EvLoadData (cvs_dir r) pdf] w |}))
     /\ (forall docs w1 e w2,
          SimpleDirectoryReader_load_data (cvs_dir r) pdf (world p) = (Ok docs, w1) ->
          VectorStoreIndex_from_documents docs (settings p) w1 = (Raised e, w2) ->
          load_or_create_index s
          = (Raised e,
             {| self := r;
                proc := after_calls p [EvPathExists dir;
                                       EvLoadData (cvs_dir r) pdf;
                                       EvFromDocuments docs (settings p)] w2 |}))
     /\ (forall docs w1 i w2 e w3,
          SimpleDirectoryReader_load_data (cvs_dir r) pdf (world p) = (Ok docs, w1) ->
          VectorStoreIndex_from_documents docs (settings p) w1 = (Ok i, w2) ->
          storage_context_persist i dir w2 = (Raised e, w3) ->
          load_or_create_index s
          = (Raised e,
             {| self := set_index i r;
                proc := after_calls p [EvPathExists dir;
                                       EvLoadData (cvs_dir r) pdf;
                                       EvFromDocuments docs (settings p);
                                       EvPersist i dir] w3 |}))
     /\ (forall docs w1 i w2 w3,
          SimpleDirectoryReader_load_data (cvs_dir r) pdf (world p) = (Ok docs, w1) ->
          VectorStoreIndex_from_documents docs (settings p) w1 = (Ok i, w2) ->
          storage_context_persist i dir w2 = (Ok tt, w3) ->
          load_or_create_index s
          = (Ok tt,
             {| self := ready_with i r (settings p);
                proc := after_calls p [EvPathExists dir;
                                       EvLoadData (cvs_dir r) pdf;
                                       EvFromDocuments docs (settings p);
                                       EvPersist i dir] w3 |}))).
Proof.
  intros r p dir pdf. subst r p dir pdf. split; intros Hex.
  - repeat split.
    + intros e w H. run. use Hex. use H. flat.
    + intros sc w1 e w2 H1 H2. run. use Hex. use H1. use H2. flat.
    + intros sc w1 i w2 H1 H2. run. use Hex. use H1. use H2. flat.
  - repeat split.
    + intros e w H. run. use Hex. use H. flat.
    + intros docs w1 e w2 H1 H2. run. use Hex. use H1. use H2. flat.
    + intros docs w1 i w2 e w3 H1 H2 H3. run. use Hex. use H1. use H2. use H3. flat.
    + intros docs w1 i w2 w3 H1 H2 H3. run. use Hex. use H1. use H2. use H3. flat.
Qed.

Ltac ask_library :=
  match goal with
  | |- context [StorageContext_from_defaults ?a ?w] =>
      destruct (StorageContext_from_defaults a w) as [[?|?] ?]; simpl
  | |- context [load_index_from_storage ?a ?c ?w] =>
      destruct (load_index_from_storage a c w) as [[?|?] ?]; simpl
  | |- context [SimpleDirectoryReader_load_data ?a ?b ?w] =>
      destruct (SimpleDirectoryReader_load_data a b w) as [[?|?] ?]; simpl
  | |- context [VectorStoreIndex_from_documents ?a ?c ?w] =>
      destruct (VectorStoreIndex_from_documents a c w) as [[?|?] ?]; simpl
  | |- context [storage_context_persist ?a ?b ?w] =>
      destruct (storage_context_persist a b w) as [[?|?] ?]; simpl
  | |- context [query_engine_query ?a ?b ?c ?w] =>
      destruct (query_engine_query a b c w) as [[?|?] ?]; simpl
  end.

Ltac logged :=
  eexists _, _; split; [flat|];
  split; [repeat constructor|]; split; [repeat constructor|].

(** What one run of [load_or_create_index] can do to the process and to
    the instance. *)
Lemma load_shape (s : State) :
  let s' := snd (load_or_create_index s) in
  exists evs w,
    proc s' = after_calls (proc s) evs w
    /\ Forall (fun ev => queried_engine ev = None) evs
    /\ Forall (under (settings (proc s))) evs
    /\ (self s' = self s
        \/ exists i, self s' = set_index i (self s)
                     \/ self s' = ready_with i (self s) (settings (proc s))).
Proof.
  run. set (dir := persist_dir (self s)).
  destruct (os_path_exists dir (world (proc s))); simpl.
  - ask_library.
    + ask_library.
      * logged. right. eexists. right. reflexivity.
      * logged. left. reflexivity.
    + logged. left. reflexivity.
  - ask_library.
    + ask_library.
      * ask_library.
        -- logged. right. eexists. right. reflexivity.
        -- logged. right. eexists. left. reflexivity.
      * logged. left. reflexivity.
    + logged. left. reflexivity.
Qed.

(** [run_engine] makes one call, with the engine it is given, and leaves
    the instance alone. *)
Lemma run_engine_shape (qe : QueryEngine Index) (q : Py.str) (s : State) :
  self (snd (run_engine qe q s)) = self s
  /\ proc (snd (run_engine qe q s))
     = after_calls (proc s) [EvEngineQuery qe q (settings (proc s))]
         (snd (query_engine_query qe q (settings (proc s)) (world (proc s))))
  /\ fst (run_engine qe q s)
     = obind (fst (query_engine_query qe q (settings (proc s)) (world (proc s))))
         (fun response =>
            Ok (response_str response,
                map to_dict (map project (default [] (source_nodes response))))).
Proof.
  run. ask_library; [rewrite extract_sources_ok|]; simpl; auto.
Qed.

Lemma query_unfold (q : Py.str) (s : State) :
  query q s = match query_engine (self s) with
              | None => (Raised not_loaded, s)
              | Some qe => run_engine qe q s
              end.
Proof. unfold query, bind, get_self. simpl. destruct (query_engine (self s)); reflexivity. Qed.

Lemma custom_query_unfold (q : Py.str) (sp : option Py.str) (s : State) :
  custom_query q sp s
  = match query_engine (self s) with
    | None => (Raised not_loaded, s)
    | Some qe =>
        if Py.truthy_opt sp then
          match index (self s) with
          | Some i => run_engine (custom_engine i (self s) (settings (proc s)) (default [] sp)) q s
          | None =>
              (Raised (AttributeError
                 (Py.lit "'NoneType' object has no attribute 'as_query_engine'")), s)
          end
        else run_engine qe q s
    end.
Proof.
  unfold custom_query, bind, get_self, as_query_engine, ret, raise, custom_engine.
  simpl. destruct (query_engine (self s)); [|reflexivity].
  destruct (Py.truthy_opt sp); [|reflexivity].
  destruct (index (self s)); reflexivity.
Qed.

(** Every way a construction can end: nothing is logged; when it
    returns, the instance is the fresh one and the settings are those of
    the arguments; when it raises, the settings assigned so far stay. *)
Lemma init_shape (a : InitArgs) (p : Proc) :
  calls (snd (__init__ a p)) = calls p
  /\ match fst (__init__ a p) with
     | Ok r => r = fresh_instance a
               /\ settings (snd (__init__ a p)) = settings_of a
     | Raised _ =>
         settings (snd (__init__ a p)) = settings p
         \/ settings (snd (__init__ a p))
            = {| llm := llm (settings_of a);
                 embed_model := embed_model (settings p);
                 node_parser := node_parser (settings p) |}
         \/ settings (snd (__init__ a p))
            = {| llm := llm (settings_of a);
                 embed_model := embed_model (settings_of a);
                 node_parser := node_parser (settings p) |}
     end.
Proof.
  unfold __init__.
  destruct (LlamaOpenAI_new (a_llm_model a) (world p)) as [[[]|e1] w1]; simpl;
    [|auto].
  destruct (OpenAIEmbedding_new (a_embed_model a) w1) as [[[]|e2] w2]; simpl;
    [|auto].
  destruct (SentenceSplitter_from_defaults (a_chunk_size a) (a_chunk_overlap a) w2)
    as [[[]|e3] w3]; simpl; auto.
Qed.

(** What every public call does to the log, the settings and the
    instance's [top_k]. *)
Lemma step_shape (m : Method) (s : State) :
  top_k (self (step m s)) = top_k (self s)
  /\ exists evs,
      calls (proc (step m s)) = calls (proc s) ++ evs
      /\ Forall (under (settings (proc s))) evs
      /\ ((forall qe, query_engine (self s) = Some qe ->
                      similarity_top_k qe = top_k (self s)) ->
          Forall (searches_with (top_k (self s))) evs).
Proof.
  destruct m as [|q|q sp|a]; simpl.
  - destruct (load_shape s) as (evs & w & Hp & Hq & Hu & Hs). simpl in Hp, Hs.
    split.
    + destruct Hs as [->|[i [-> | ->]]]; reflexivity.
    + exists evs. rewrite Hp. split; [reflexivity|]. split; [assumption|].
      intros _. eapply Forall_impl; [exact Hq|].
      intros ev Hev. unfold searches_with. rewrite Hev. exact I.
  - rewrite query_unfold. destruct (query_engine (self s)) as [qe|] eqn:Hqe.
    + destruct (run_engine_shape qe q s) as (Hs & Hp & _).
      rewrite Hs, Hp. split; [reflexivity|]. eexists. split; [reflexivity|].
      split; [repeat constructor|].
      intros Hk. repeat constructor. unfold searches_with. simpl. auto.
    + simpl. split; [reflexivity|]. exists []. rewrite app_nil_r.
      repeat split; constructor.
  - rewrite custom_query_unfold.
    destruct (query_engine (self s)) as [qe|] eqn:Hqe;
      [|simpl; split; [reflexivity|]; exists []; rewrite app_nil_r;
        repeat split; constructor].
    destruct (Py.truthy_opt sp).
    + destruct (index (self s)) as [i|];
        [|simpl; split; [reflexivity|]; exists []; rewrite app_nil_r;
          repeat split; constructor].
      destruct (run_engine_shape (custom_engine i (self s) (settings (proc s)) (default [] sp)) q s)
        as (Hs & Hp & _).
      rewrite Hs, Hp. split; [reflexivity|]. eexists. split; [reflexivity|].
      split; repeat constructor.
    + destruct (run_engine_shape qe q s) as (Hs & Hp & _).
      rewrite Hs, Hp. split; [reflexivity|]. eexists. split; [reflexivity|].
      split; [repeat constructor|].
      intros Hk. repeat constructor. unfold searches_with. simpl. auto.
  - split; [reflexivity|]. exists []. rewrite app_nil_r.
    destruct (init_shape a (proc s)) as [-> _].
    repeat split; constructor.
Qed.

(** What every public call keeps true of the stored engine. *)
Lemma step_engine (m : Method) (s : State) :
  ((forall qe, query_engine (self s) = Some qe ->
               similarity_top_k qe = top_k (self s)) ->
   forall qe, query_engine (self (step m s)) = Some qe ->
              similarity_top_k qe = top_k (self s))
  /\ ((index (self s) = None -> query_engine (self s) = None) ->
      index (self (step m s)) = None -> query_engine (self (step m s)) = None).
Proof.
  destruct m as [|q|q sp|a]; simpl.
  - destruct (load_shape s) as (evs & w & _ & _ & _ & Hs). simpl in Hs.
    destruct Hs as [->|[i [-> | ->]]]; simpl; split; auto;
      try discriminate.
    intros _ qe [= <-]. reflexivity.
  - rewrite query_unfold. destruct (query_engine (self s)) as [qe|] eqn:Hqe.
    + destruct (run_engine_shape qe q s) as (-> & _). rewrite Hqe. auto.
    + simpl. rewrite Hqe. auto.
  - rewrite custom_query_unfold.
    destruct (query_engine (self s)) as [qe|] eqn:Hqe;
      [|simpl; rewrite Hqe; auto].
    destruct (Py.truthy_opt sp).
    + destruct (index (self s)) as [i|] eqn:Hi.
      * destruct (run_engine_shape (custom_engine i (self s) (settings (proc s)) (default [] sp)) q s)
          as (-> & _). rewrite Hqe, Hi. auto.
      * simpl. rewrite Hqe, Hi. auto.
    + destruct (run_engine_shape qe q s) as (-> & _). rewrite Hqe. auto.
  - auto.
Qed.

(** The invariant of an instance's life. *)
Lemma reachable_inv (a : InitArgs) (p0 : Proc) (s : State) :
  reachable a p0 s ->
  top_k (self s) = a_top_k a
  /\ (forall qe, query_engine (self s) = Some qe ->
                 similarity_top_k qe = a_top_k a)
  /\ (index (self s) = None -> query_engine (self s) = None)
  /\ exists evs, calls (proc s) = calls p0 ++ evs
                 /\ Forall (searches_with (a_top_k a)) evs.
Proof.
  induction 1 as [r p Hinit|s m Hr (Hk & Hqe & Hidx & evs & Hcalls & Hall)].
  - destruct (init_shape a p0) as [Hcalls Hok]. rewrite Hinit in Hcalls, Hok.
    simpl in Hcalls, Hok. destruct Hok as [-> _]. simpl.
    repeat split; try discriminate.
    exists []. rewrite app_nil_r. split; [assumption | constructor].
  - destruct (step_shape m s) as (Hk' & evs' & Hcalls' & _ & Hsearch).
    destruct (step_engine m s) as (Heng & Hidx').
    rewrite Hk in *.
    split; [assumption|]. split; [auto|]. split; [auto|].
    exists (evs ++ evs'). rewrite Hcalls', Hcalls, app_assoc.
    split; [reflexivity|]. apply Forall_app. auto.
Qed.

(** C2: in every state an instance can reach in which the index was not
    loaded or created, or the engine was not prepared, [query] and
    [custom_query] raise the "Index not loaded" [ValueError] and leave the
    whole state as it was: no call was made. *)
Theorem C2_not_ready_raises_before_any_call
    (a : InitArgs) (p0 : Proc) (s : State) (q : Py.str) (sp : option Py.str) :
  reachable a p0 s ->
  index (self s) = None \/ query_engine (self s) = None ->
  query q s = (Raised not_loaded, s)
  /\ custom_query q sp s = (Raised not_loaded, s).
Proof.
  intros Hr Hnot.
  destruct (reachable_inv a p0 s Hr) as (_ & _ & Hidx & _).
  assert (Hqe : query_engine (self s) = None) by (destruct Hnot; auto).
  rewrite query_unfold, custom_query_unfold, Hqe. split; reflexivity.
Qed.

(** C6: a query that returns gives the text of the engine's response and
    one evidence dict per retrieved node, in the order retrieved; each
    dict has exactly the keys [file], [score] and [text], with the base
    name of the node's source reference and its score rounded to 3
    decimal places.  The same holds of [custom_query]. *)
Theorem C6_query_returns_answer_and_evidence
    (s s' : State) (q : Py.str) (sp : option Py.str)
    (answer : Py.str) (ev : Evidence) :
  query q s = (Ok (answer, ev), s')
  \/ custom_query q sp s = (Ok (answer, ev), s') ->
  exists qe response,
    query_engine_query qe q (settings (proc s)) (world (proc s))
    = (Ok response, world (proc s'))
    /\ answer = response_str response
    /\ Forall2 evidence_for (default [] (source_nodes response)) ev.
Proof.
  assert (Hrun : forall qe, run_engine qe q s = (Ok (answer, ev), s') ->
            exists response,
              query_engine_query qe q (settings (proc s)) (world (proc s))
              = (Ok response, world (proc s'))
              /\ answer = response_str response
              /\ Forall2 evidence_for (default [] (source_nodes response)) ev).
  { intros qe H. destruct (run_engine_shape qe q s) as (_ & Hp & Ho).
    rewrite H in Hp, Ho. simpl in Hp, Ho.
    destruct (query_engine_query qe q (settings (proc s)) (world (proc s)))
      as [[response|e] w]; simpl in *; [|discriminate].
    injection Ho as -> ->. exists response. rewrite Hp. simpl.
    repeat split. apply evidence_follows_nodes. }
  intros [H|H].
  - rewrite query_unfold in H.
    destruct (query_engine (self s)) as [qe|]; [|discriminate].
    exists qe. auto.
  - rewrite custom_query_unfold in H.
    destruct (query_engine (self s)) as [qe|]; [|discriminate].
    destruct (Py.truthy_opt sp).
    + destruct (index (self s)) as [i|]; [|discriminate].
      eexists. eauto.
    + exists qe. auto.
Qed.

(** A [load_or_create_index] that returns leaves the index in place and
    the engine prepared over it. *)
Lemma load_ok_ready (s : State) :
  fst (load_or_create_index s) = Ok tt ->
  exists i, self (snd (load_or_create_index s))
            = ready_with i (self s) (settings (proc s)).
Proof.
  run.
  destruct (os_path_exists (persist_dir (self s)) (world (proc s))); simpl;
    repeat ask_library; intros H; try discriminate; eauto.
Qed.

(** C7: [top_k] defaults to 5, and in every state an instance built with
    [top_k = k] can reach, the instance's [top_k] is [k], the prepared
    engine searches with [similarity_top_k = k], every query made since
    the construction searched with [k], and the next [query] asks that
    prepared engine.  A [load_or_create_index] that returns has prepared
    an engine over the index with [similarity_top_k = k], and a
    [custom_query] with a prompt asks an engine built with [k] too. *)
Theorem C7_top_k_fixed_at_construction
    (environ : gmap string Py.str) (a : InitArgs) (p0 : Proc) (s : State) :
  reachable a p0 s ->
  a_top_k (default_args environ) = 5
  /\ top_k (self s) = a_top_k a
  /\ (exists evs, calls (proc s) = calls p0 ++ evs
                  /\ Forall (searches_with (a_top_k a)) evs)
  /\ (forall qe, query_engine (self s) = Some qe ->
       similarity_top_k qe = a_top_k a
       /\ forall q, calls (proc (step (CallQuery q) s))
                    = calls (proc s) ++ [EvEngineQuery qe q (settings (proc s))])
  /\ (fst (load_or_create_index s) = Ok tt ->
      exists i,
        index (self (snd (load_or_create_index s))) = Some i
        /\ query_engine (self (snd (load_or_create_index s)))
           = Some {| qe_index := i; similarity_top_k := a_top_k a;
                     response_mode := Some (Py.lit "compact");
                     text_qa_template := None;
                     built_under := settings (proc s) |})
  /\ (forall q sp qe i,
        Py.truthy sp = true ->
        query_engine (self s) = Some qe ->
        index (self s) = Some i ->
        calls (proc (snd (custom_query q (Some sp) s)))
        = calls (proc s)
          ++ [EvEngineQuery
                {| qe_index := i; similarity_top_k := a_top_k a;
                   response_mode := None;
                   text_qa_template := Some (qa_prompt sp);
                   built_under := settings (proc s) |}
                q (settings (proc s))]).
Proof.
  intros Hr. destruct (reachable_inv a p0 s Hr) as (Hk & Hqe & _ & Hlog).
  split; [reflexivity|]. split; [exact Hk|]. split; [exact Hlog|].
  split; [|split].
  - intros qe Hsome. split; [auto|].
    intros q0. simpl. rewrite query_unfold, Hsome.
    destruct (run_engine_shape qe q0 s) as (_ & -> & _). reflexivity.
  - intros Hok. destruct (load_ok_ready s Hok) as [i Hi].
    exists i. rewrite Hi. unfold ready_with, default_engine. simpl.
    rewrite Hk. split; reflexivity.
  - intros q sp qe i Hsp Hsome Hi.
    rewrite custom_query_unfold, Hsome, Hi. simpl. rewrite Hsp.
    destruct (run_engine_shape (custom_engine i (self s) (settings (proc s)) sp) q s)
      as (_ & -> & _).
    unfold custom_engine. rewrite Hk. reflexivity.
Qed.

(** A call on an instance, whichever it is, leaves the global settings
    as they are. *)
Lemma method_keeps_settings (m : Method) (s : State) :
  is_method m = true -> settings (proc (step m s)) = settings (proc s).
Proof.
  destruct m as [|q|q sp|a]; simpl; intros Hm; [| | |discriminate].
  - destruct (load_shape s) as (evs & w & Hp & _). simpl in Hp.
    rewrite Hp. reflexivity.
  - rewrite query_unfold. destruct (query_engine (self s)) as [qe|];
      [|reflexivity].
    destruct (run_engine_shape qe q s) as (_ & -> & _). reflexivity.
  - rewrite custom_query_unfold.
    destruct (query_engine (self s)) as [qe|]; [|reflexivity].
    destruct (Py.truthy_opt sp).
    + destruct (index (self s)) as [i|]; [|reflexivity].
      destruct (run_engine_shape
                  (custom_engine i (self s) (settings (proc s)) (default [] sp))
                  q s) as (_ & -> & _). reflexivity.
    + destruct (run_engine_shape qe q s) as (_ & -> & _). reflexivity.
Qed.

Lemma methods_keep_settings (ms : list Method) (s : State) :
  Forall (fun m => is_method m = true) ms ->
  settings (proc (steps ms s)) = settings (proc s)
  /\ exists evs, calls (proc (steps ms s)) = calls (proc s) ++ evs
                 /\ Forall (under (settings (proc s))) evs.
Proof.
  revert s. induction ms as [|m rest IH]; intros s Hms; simpl.
  - split; [reflexivity|]. exists []. rewrite app_nil_r.
    split; [reflexivity | constructor].
  - inversion Hms as [|? ? Hm Hrest]; subst.
    destruct (IH (step m s) Hrest) as (Hset & evs & Hcalls & Hunder).
    pose proof (method_keeps_settings m s Hm) as Hstep.
    destruct (step_shape m s) as (_ & evs0 & Hcalls0 & Hunder0 & _).
    rewrite Hstep in Hset, Hunder. split; [exact Hset|].
    exists (evs0 ++ evs). rewrite Hcalls, Hcalls0, app_assoc.
    split; [reflexivity|]. apply Forall_app. auto.
Qed.

(** C9: a construction that returns has assigned the three global
    settings from its own arguments, whatever they were, so those left by
    an instance built before are gone.  From then on, until another
    construction, every instance of the process, in whatever state it is
    and through whatever calls, works under them: its calls are made
    under them, the answer [query] returns is the one the engine gives
    under them, and the index [load_or_create_index] builds is the one
    the library builds under them. *)
Theorem C9_constructor_overwrites_global_settings
    (b : InitArgs) (p pb : Proc) (r rb : Rag) (ms : list Method) :
  __init__ b p = (Ok rb, pb) ->
  Forall (fun m => is_method m = true) ms ->
  let s := steps ms {| self := r; proc := pb |} in
  settings pb = settings_of b
  /\ settings (proc s) = settings_of b
  /\ (exists evs, calls (proc s) = calls p ++ evs
                  /\ Forall (under (settings_of b)) evs)
  /\ (forall q qe,
        query_engine (self s) = Some qe ->
        fst (query q s)
        = obind (fst (query_engine_query qe q (settings_of b) (world (proc s))))
            (fun response =>
               Ok (response_str response,
                   map to_dict
                     (map project (default [] (source_nodes response))))))
  /\ (forall docs w1,
        os_path_exists (persist_dir (self s)) (world (proc s)) = false ->
        SimpleDirectoryReader_load_data (cvs_dir (self s)) [Py.lit ".pdf"]
          (world (proc s)) = (Ok docs, w1) ->
        match VectorStoreIndex_from_documents docs (settings_of b) w1 with
        | (Ok i, _) => index (self (snd (load_or_create_index s))) = Some i
        | (Raised e, _) => fst (load_or_create_index s) = Raised e
        end).
Proof.
  intros Hinit Hms.
  destruct (init_shape b p) as [Hcalls Hok]. rewrite Hinit in Hcalls, Hok.
  simpl in Hcalls, Hok. destruct Hok as [_ Hset].
  destruct (methods_keep_settings ms {| self := r; proc := pb |} Hms)
    as (Hkeep & evs & Hlog & Hunder).
  simpl in Hkeep, Hlog, Hunder. rewrite Hset in Hkeep, Hunder.
  rewrite Hcalls in Hlog. simpl.
  set (s := steps ms {| self := r; proc := pb |}) in *.
  split; [exact Hset|]. split; [exact Hkeep|].
  split; [exists evs; auto|]. split.
  - intros q qe Hqe. rewrite query_unfold, Hqe.
    destruct (run_engine_shape qe q s) as (_ & _ & ->).
    rewrite Hkeep. reflexivity.
  - intros docs w1 Hex Hdata. rewrite <- Hkeep.
    run. use Hex. use Hdata.
    destruct (VectorStoreIndex_from_documents docs (settings (proc s)) w1)
      as [[i|e] w2]; simpl; [|reflexivity].
    destruct (storage_context_persist i (persist_dir (self s)) w2)
      as [[[]|e] w3]; reflexivity.
Qed.

(** C4: [custom_query] never changes the instance (its index, its
    prepared engine, its [top_k]) nor the global settings.  With a
    non-empty prompt on a ready instance it asks an engine built for this
    call from the index, the prompt and [top_k]; a [query] that follows
    asks the prepared engine, unchanged. *)
Theorem C4_custom_query_leaves_shared_configuration
    (s : State) (q q2 : Py.str) (sp : Py.str)
    (qe : QueryEngine Index) (i : Index) :
  (forall osp, self (snd (custom_query q osp s)) = self s
               /\ settings (proc (snd (custom_query q osp s)))
                  = settings (proc s))
  /\ (Py.truthy sp = true ->
      query_engine (self s) = Some qe ->
      index (self s) = Some i ->
      let s' := snd (custom_query q (Some sp) s) in
      calls (proc s')
      = calls (proc s)
        ++ [EvEngineQuery (custom_engine i (self s) (settings (proc s)) sp) q (settings (proc s))]
      /\ text_qa_template (custom_engine i (self s) (settings (proc s)) sp) = Some (qa_prompt sp)
      /\ query_engine (self s') = Some qe
      /\ index (self s') = Some i
      /\ calls (proc (snd (query q2 s')))
         = calls (proc s') ++ [EvEngineQuery qe q2 (settings (proc s))]).
Proof.
  split.
  - intros osp. rewrite custom_query_unfold.
    destruct (query_engine (self s)) as [qe0|]; [|auto].
    destruct (Py.truthy_opt osp).
    + destruct (index (self s)) as [i0|]; [|auto].
      destruct (run_engine_shape (custom_engine i0 (self s) (settings (proc s)) (default [] osp)) q s)
        as (-> & -> & _). auto.
    + destruct (run_engine_shape qe0 q s) as (-> & -> & _). auto.
  - intros Hsp Hqe Hi. simpl.
    rewrite custom_query_unfold, Hqe, Hi. simpl. rewrite Hsp.
    destruct (run_engine_shape (custom_engine i (self s) (settings (proc s)) sp) q s)
      as (Hs & Hp & _).
    rewrite query_unfold, Hs, Hp, Hqe, Hi. simpl.
    destruct (run_engine_shape qe q2
                (snd (run_engine (custom_engine i (self s) (settings (proc s)) sp) q s)))
      as (_ & Hp2 & _).
    rewrite Hp2, Hp. simpl. repeat split.
Qed.

(** C5: when the engine raises an [Exception] during one chat query, the
    handler returns normally, shows the error, and saves the fixed failure
    answer with an empty evidence list; the instance (index and engine)
    and the settings are as before, and a next question the engine
    answers is saved with that answer and its evidence. *)
Theorem C5_query_failure_is_scoped_to_the_query
    (a : App) (q q2 : Py.str) (qe : QueryEngine Index) (e : exn) (w : World) :
  Py.truthy q = true ->
  query_engine (rag a) = Some qe ->
  is_Exception e = true ->
  query_engine_query qe q (settings (app_proc a)) (world (app_proc a))
  = (Raised e, w) ->
  let a' := snd (on_chat_input (Some q) a) in
  fst (on_chat_input (Some q) a) = Ok tt
  /\ rag a' = rag a
  /\ settings (app_proc a') = settings (app_proc a)
  /\ world (app_proc a') = w
  /\ messages a'
     = messages a ++ [user_message q; assistant_message failure_answer []]
  /\ EvStError (error_text e) ∈ calls (app_proc a')
  /\ forall response w2,
       Py.truthy q2 = true ->
       query_engine_query qe q2 (settings (app_proc a)) w = (Ok response, w2) ->
       fst (on_chat_input (Some q2) a') = Ok tt
       /\ rag (snd (on_chat_input (Some q2) a')) = rag a
       /\ messages (snd (on_chat_input (Some q2) a'))
          = messages a'
            ++ [user_message q2;
                assistant_message (response_str response)
                  (map to_dict (map project (default [] (source_nodes response))))].
Proof.
  intros Hq Hqe He Hfail.
  assert (Hstep : forall (b : App) (x : Py.str),
            Py.truthy x = true -> rag b = rag a ->
            settings (app_proc b) = settings (app_proc a) ->
            forall o w', query_engine_query qe x (settings (app_proc a))
                           (world (app_proc b)) = (o, w') ->
            on_chat_input (Some x) b
            = match o with
              | Ok response =>
                  let srcs := map to_dict (map project
                                (default [] (source_nodes response))) in
                  (Ok tt,
                   {| rag := rag a;
                      messages := (messages b ++ [user_message x])
                                  ++ [assistant_message (response_str response) srcs];
                      app_proc :=
                        after_calls (app_proc b)
                          [EvStMarkdown x;
                           EvStatus (Py.lit "Searching through CVs" ++ [8230%N])
                                    (Py.lit "running");
                           EvEngineQuery qe x (settings (app_proc a));
                           EvStatus (Py.lit "Found relevant results")
                                    (Py.lit "complete");
                           EvStMarkdown (response_str response)] w' |})
              | Raised e' =>
                  if is_Exception e' then
                    (Ok tt,
                     {| rag := rag a;
                        messages := (messages b ++ [user_message x])
                                    ++ [assistant_message failure_answer []];
                        app_proc :=
                          after_calls (app_proc b)
                            [EvStMarkdown x;
                             EvStatus (Py.lit "Searching through CVs" ++ [8230%N])
                                      (Py.lit "running");
                             EvEngineQuery qe x (settings (app_proc a));
                             EvStatus (Py.lit "Error") (Py.lit "error");
                             EvStError (error_text e');
                             EvStMarkdown failure_answer] w' |})
                  else
                    (Raised e',
                     {| rag := rag a;
                        messages := messages b ++ [user_message x];
                        app_proc :=
                          after_calls (app_proc b)
                            [EvStMarkdown x;
                             EvStatus (Py.lit "Searching through CVs" ++ [8230%N])
                                      (Py.lit "running");
                             EvEngineQuery qe x (settings (app_proc a))] w' |})
              end).
  { intros b x Hx Hrag Hset o w' Hcall.
    unfold on_chat_input. simpl. rewrite Hx.
    rewrite query_unfold. simpl. rewrite Hrag, Hqe.
    run. rewrite Hset, Hcall. simpl.
    destruct o as [response|e']; simpl.
    - rewrite extract_sources_ok. simpl.
      unfold show_and_save, append_message, ui, after_query, log,
        assistant_message, user_message. simpl.
      rewrite <- !app_assoc. reflexivity.
    - destruct (is_Exception e'); simpl;
        unfold show_and_save, append_message, ui, after_query, log,
          assistant_message, user_message; simpl;
        rewrite <- !app_assoc; reflexivity. }
  simpl.
  rewrite (Hstep a q Hq eq_refl eq_refl _ _ Hfail). rewrite He. simpl.
  split; [reflexivity|]. split; [reflexivity|]. split; [reflexivity|].
  split; [reflexivity|]. split; [rewrite <- app_assoc; reflexivity|].
  split.
  - apply list_elem_of_In, in_or_app. right. simpl. tauto.
  - intros response w2 Hq2 Hok.
    erewrite Hstep; [|exact Hq2|reflexivity|reflexivity|exact Hok].
    simpl. rewrite <- !app_assoc. repeat split.
Qed.

End PipelineFacts.

(** ** The theorems at work on the small library *)

Section Runs.

#[local] Existing Instance Demo.lib.

Lemma C2_witness :
  query (Py.lit "hi") Demo.start = (Raised not_loaded, Demo.start)
  /\ custom_query (Py.lit "hi") (Some (Py.lit "Be brief")) Demo.start
     = (Raised not_loaded, Demo.start).
Proof.
  apply (C2_not_ready_raises_before_any_call Demo.args Demo.fresh).
  - unfold Demo.start. apply reach_init. reflexivity.
  - left. reflexivity.
Defined.

Lemma C3_witness :
  fst (load_or_create_index Demo.start) = Ok tt
  /\ fst (load_or_create_index Demo.broken) = Raised Demo.api_error
  /\ self (snd (load_or_create_index Demo.broken)) = self Demo.broken.
Proof.
  destruct (C3_load_or_create_index Demo.start) as [_ Hbuild].
  destruct (Hbuild eq_refl) as (_ & _ & _ & Hall).
  destruct (C3_load_or_create_index Demo.broken) as [Hload _].
  destruct (Hload eq_refl) as (_ & Hcorrupt & _).
  rewrite (Hall _ _ _ _ _ eq_refl eq_refl eq_refl).
  rewrite (Hcorrupt _ _ _ _ eq_refl eq_refl).
  repeat split.
Defined.

Lemma C4_witness :
  calls (proc (snd (query (Py.lit "hi")
                      (snd (custom_query (Py.lit "who?")
                              (Some (Py.lit "Be brief")) Demo.ready)))))
  = calls (proc Demo.ready)
    ++ [EvEngineQuery
          (custom_engine Demo.idx (self Demo.ready) (settings (proc Demo.ready))
             (Py.lit "Be brief"))
          (Py.lit "who?") (settings (proc Demo.ready));
        EvEngineQuery (default_engine Demo.idx (self Demo.ready) (settings (proc Demo.ready)))
          (Py.lit "hi") (settings (proc Demo.ready))].
Proof.
  destruct (C4_custom_query_leaves_shared_configuration Demo.ready
              (Py.lit "who?") (Py.lit "hi") (Py.lit "Be brief")
              (default_engine Demo.idx (self Demo.ready) (settings (proc Demo.ready))) Demo.idx)
    as [_ H].
  destruct (H eq_refl eq_refl eq_refl) as (H1 & _ & _ & _ & H2).
  rewrite H2, H1, <- app_assoc. reflexivity.
Defined.

Lemma C5_witness :
  fst (on_chat_input (Some (Py.lit "fail")) Demo.app) = Ok tt
  /\ messages (snd (on_chat_input (Some (Py.lit "fail")) Demo.app))
     = [user_message (Py.lit "fail"); assistant_message failure_answer []]
  /\ messages (snd (on_chat_input (Some (Py.lit "hi"))
                      (snd (on_chat_input (Some (Py.lit "fail")) Demo.app))))
     = [user_message (Py.lit "fail"); assistant_message failure_answer [];
        user_message (Py.lit "hi");
        assistant_message (Py.lit "Re: hi")
          (map to_dict [project Demo.node; project Demo.bare_node])].
Proof.
  destruct (C5_query_failure_is_scoped_to_the_query Demo.app
              (Py.lit "fail") (Py.lit "hi")
              (default_engine Demo.idx (self Demo.ready) (settings (proc Demo.ready)))
              Demo.api_error true eq_refl eq_refl eq_refl eq_refl)
    as (H1 & _ & _ & _ & H2 & _ & H3).
  destruct (H3 (Demo.answer_to (Py.lit "hi")) true eq_refl eq_refl)
    as (_ & _ & H4).
  split; [exact H1|]. split; [exact H2|].
  rewrite H4, H2. reflexivity.
Defined.

Lemma C6_witness :
  exists qe response,
    query_engine_query qe (Py.lit "hi") (settings (proc Demo.ready))
      (world (proc Demo.ready))
    = (Ok response, world (proc (snd (query (Py.lit "hi") Demo.ready))))
    /\ Py.lit "Re: hi" = response_str response
    /\ Forall2 evidence_for (default [] (source_nodes response))
         (map to_dict [project Demo.node; project Demo.bare_node]).
Proof.
  apply (C6_query_returns_answer_and_evidence Demo.ready
           (snd (query (Py.lit "hi") Demo.ready)) (Py.lit "hi") None).
  left. reflexivity.
Defined.

Lemma C7_witness :
  exists qe,
    query_engine (self (step CallLoad Demo.start)) = Some qe
    /\ similarity_top_k qe = 5
    /\ calls (proc (step (CallQuery (Py.lit "hi")) (step CallLoad Demo.start)))
       = calls (proc (step CallLoad Demo.start))
         ++ [EvEngineQuery qe (Py.lit "hi")
               (settings (proc (step CallLoad Demo.start)))].
Proof.
  assert (Hstart : reachable Demo.args Demo.fresh Demo.start)
    by (unfold Demo.start; apply reach_init; reflexivity).
  destruct (C7_top_k_fixed_at_construction ∅ Demo.args Demo.fresh
              Demo.start Hstart)
    as (_ & _ & _ & _ & Hload & _).
  destruct (Hload eq_refl) as (i & _ & Hqe).
  destruct (C7_top_k_fixed_at_construction ∅ Demo.args Demo.fresh
              (step CallLoad Demo.start) (reach_step _ _ _ CallLoad Hstart))
    as (_ & _ & _ & Hasked & _).
  destruct (Hasked _ Hqe) as [Hk Hcalls].
  eexists. split; [exact Hqe|]. split; [exact Hk | apply Hcalls].
Defined.

Lemma C9_witness :
  let p := snd (__init__ Demo.other_args (proc Demo.ready)) in
  let s := steps [CallQuery (Py.lit "hi")]
             {| self := self Demo.ready; proc := p |} in
  settings p = settings_of Demo.other_args
  /\ settings (proc s) = settings_of Demo.other_args
  /\ fst (query (Py.lit "who?") s)
     = obind (fst (query_engine_query
                     (default_engine Demo.idx (self Demo.start)
                        (settings (proc Demo.start)))
                     (Py.lit "who?") (settings_of Demo.other_args)
                     (world (proc s))))
         (fun response =>
            Ok (response_str response,
                map to_dict (map project (default [] (source_nodes response))))).
Proof.
  destruct (C9_constructor_overwrites_global_settings Demo.other_args
              (proc Demo.ready)
              (snd (__init__ Demo.other_args (proc Demo.ready)))
              (self Demo.ready) (fresh_instance Demo.other_args)
              [CallQuery (Py.lit "hi")])
    as (H1 & H2 & _ & H3 & _).
  - reflexivity.
  - repeat constructor.
  - split; [exact H1|]. split; [exact H2|]. apply H3. reflexivity.
Defined.

End Runs.

(** ** More on the evidence records *)

Section Evidence.

Lemma basename_nil_iff (p : Py.str) :
  Py.basename p = [] <-> p = [] \/ last p = Some Py.slash.
Proof.
  destruct (basename_split p) as (dir & Hp & Hno & Hdir).
  split.
  - intros Hb. rewrite Hb, app_nil_r in Hp. subst dir.
    destruct Hdir; [left|right]; assumption.
  - intros [Hnil | Hlast].
    + subst p. reflexivity.
    + destruct (Py.basename p) as [|c b] eqn:Hb; [reflexivity|].
      exfalso. apply Hno.
      rewrite Hp, last_app in Hlast.
      destruct (last (c :: b)) as [x|] eqn:Hx.
      * injection Hlast as ->. eapply last_Some_elem_of. exact Hx.
      * apply last_None in Hx. discriminate.
Qed.

Lemma source_ref_not_nil (sn : SourceNode) : source_ref sn <> [].
Proof.
  unfold source_ref.
  destruct (meta_lookup sn "file_path") as [[|c r]|]; simpl; try discriminate;
    destruct (meta_lookup sn "file_name") as [[|c' r']|]; simpl; discriminate.
Qed.

Lemma strip_nil_iff (s : Py.str) : Py.strip s = [] <-> blank s.
Proof.
  destruct (strip_split s) as (l & r & Hs & Hl & Hr & Hhead & _).
  split.
  - intros Hnil. rewrite Hnil in Hs. rewrite Hs. apply Forall_app. auto.
  - intros Hb. destruct (Py.strip s) as [|c b]; [reflexivity|].
    exfalso. rewrite Hs in Hb.
    apply Forall_app in Hb as [_ Hb]. apply Forall_app in Hb as [Hb _].
    inversion Hb as [|? ? Hc _]. simpl in Hhead. congruence.
Qed.

(** The defining property of rounding to the nearest, ties to even. *)
Lemma round_half_even_spec (n : Z) (d : positive) :
  let m := Py.round_half_even n d in
  - Z.pos d <= 2 * (n - m * Z.pos d) <= Z.pos d
  /\ (2 * (n - m * Z.pos d) = Z.pos d -> Z.even m = true)
  /\ (2 * (n - m * Z.pos d) = - Z.pos d -> Z.even m = true).
Proof.
  pose proof (round_half_even_near n d) as Hnear.
  split; [exact Hnear|]. clear Hnear.
  unfold Py.round_half_even.
  pose proof (Z.div_mod n (Z.pos d) ltac:(lia)) as Hdm.
  pose proof (Z.mod_pos_bound n (Z.pos d) ltac:(lia)) as Hb.
  set (f := n / Z.pos d) in *. set (r := n mod Z.pos d) in *.
  assert (Hr : n - f * Z.pos d = r) by lia.
  assert (Hr1 : n - (f + 1) * Z.pos d = r - Z.pos d) by lia.
  destruct (2 * r <? Z.pos d) eqn:H1.
  { apply Z.ltb_lt in H1. rewrite Hr. split; intros; lia. }
  apply Z.ltb_ge in H1.
  destruct (Z.pos d <? 2 * r) eqn:H2.
  { apply Z.ltb_lt in H2. rewrite Hr1. split; intros; lia. }
  apply Z.ltb_ge in H2.
  destruct (Z.even f) eqn:He.
  - rewrite Hr. split; intros; [assumption | lia].
  - rewrite Hr1. replace (f + 1) with (Z.succ f) by lia.
    rewrite Z.even_succ, <- Z.negb_even, He. split; reflexivity.
Qed.

Lemma round_half_even_mono (n n' : Z) (d d' : positive) :
  n * Z.pos d' <= n' * Z.pos d ->
  Py.round_half_even n d <= Py.round_half_even n' d'.
Proof.
  intros Hle.
  destruct (round_half_even_spec n d) as ((Hlo & _) & _ & Hdown).
  destruct (round_half_even_spec n' d') as ((_ & Hhi) & Hup & _).
  set (m := Py.round_half_even n d) in *.
  set (m' := Py.round_half_even n' d') in *.
  destruct (Z_le_gt_dec m m') as [|Hgt]; [assumption|exfalso].
  assert (H1 : (2 * m' + 1) * Z.pos d <= 2 * n) by nia.
  assert (H2 : 2 * n' <= (2 * m' + 1) * Z.pos d') by nia.
  assert (H3 : 2 * n * Z.pos d' = (2 * m' + 1) * Z.pos d * Z.pos d') by nia.
  assert (H4 : 2 * n' * Z.pos d = (2 * m' + 1) * Z.pos d * Z.pos d') by nia.
  assert (H5 : 2 * n = (2 * m' + 1) * Z.pos d) by nia.
  assert (H6 : 2 * n' = (2 * m' + 1) * Z.pos d') by nia.
  assert (H7 : m = m' + 1) by nia.
  assert (Hm : Z.even m = true) by (apply Hdown; nia).
  assert (Hm' : Z.even m' = true) by (apply Hup; nia).
  subst m. rewrite H7 in Hm. replace (m' + 1) with (Z.succ m') in Hm by lia.
  rewrite Z.even_succ, <- Z.negb_even, Hm' in Hm. discriminate.
Qed.

Lemma round3_mono (x y : Q) : (x <= y)%Q -> (Py.round3 x <= Py.round3 y)%Q.
Proof.
  intros Hle. unfold Py.round3. rewrite !Qred_correct.
  unfold Qle in *. simpl.
  assert (Py.round_half_even (Qnum x * 1000) (Qden x)
          <= Py.round_half_even (Qnum y * 1000) (Qden y)); [|lia].
  apply round_half_even_mono. nia.
Qed.

Lemma or_zero_value (x : Q) : (Py.or_zero (Some x) == x)%Q.
Proof.
  unfold Py.or_zero. destruct (Qeq_bool x 0) eqn:Hz; [|reflexivity].
  apply Qeq_bool_eq in Hz. symmetry. exact Hz.
Qed.

(** [file_path] is used when it holds a non-empty string, whatever
    [file_name] holds; when it is absent, [None] or empty, a non-empty
    [file_name] is used. *)
Theorem file_path_precedes_file_name
    (sn : SourceNode) (m : gmap string (option Py.str)) (ref : Py.str) :
  sn_metadata sn = Some m ->
  ref <> [] ->
  m !! "file_path"%string = Some (Some ref)
  \/ (Py.truthy_opt (default None (m !! "file_path"%string)) = false
      /\ m !! "file_name"%string = Some (Some ref)) ->
  exists p, extract_one sn = Ok p /\ file p = Py.basename ref.
Proof.
  intros Hm Hne Hcase. exists (project sn).
  split; [apply extract_one_ok|].
  unfold project, source_ref, meta_lookup. simpl. rewrite Hm. simpl.
  destruct ref as [|c r]; [congruence|].
  destruct Hcase as [Hfp | [Hfp Hfn]].
  - rewrite Hfp. reflexivity.
  - rewrite Hfp, Hfn. reflexivity.
Qed.

Lemma file_path_precedes_file_name_witness :
  (exists p, extract_one Demo.path_node = Ok p
             /\ file p = Py.lit "cv_007.pdf")
  /\ (exists p, extract_one Demo.named_node = Ok p
                /\ file p = Py.lit "cv_001.pdf").
Proof.
  split.
  - apply (file_path_precedes_file_name Demo.path_node Demo.path_meta
             (Py.lit "/data/cvs/cv_007.pdf") eq_refl).
    + discriminate.
    + left. reflexivity.
  - apply (file_path_precedes_file_name Demo.named_node Demo.named_meta
             (Py.lit "cvs/cv_001.pdf") eq_refl).
    + discriminate.
    + right. split; reflexivity.
Defined.

(** The file of an evidence record is empty exactly when the node's
    source reference ends with a slash; the default ["Unknown"] is not
    used then. *)
Theorem file_empty_iff_reference_ends_with_slash
    (sn : SourceNode) (p : SourcePreview) :
  extract_one sn = Ok p ->
  (file p = [] <-> last (source_ref sn) = Some Py.slash).
Proof.
  rewrite extract_one_ok. intros [= <-]. simpl.
  rewrite basename_nil_iff. pose proof (source_ref_not_nil sn). tauto.
Qed.

Lemma file_empty_iff_reference_ends_with_slash_witness :
  file (project Demo.dir_node) = []
  <-> last (source_ref Demo.dir_node) = Some Py.slash.
Proof.
  apply (file_empty_iff_reference_ends_with_slash Demo.dir_node).
  reflexivity.
Defined.

(** The preview is empty exactly when the first 200 characters of the
    node text are all white space (or there is no text), whatever comes
    after them. *)
Theorem preview_empty_iff_blank_prefix (sn : SourceNode) (p : SourcePreview) :
  extract_one sn = Ok p ->
  (text p = [] <-> blank (take 200 (default [] (sn_text sn)))).
Proof.
  rewrite extract_one_ok. intros [= <-]. simpl.
  rewrite <- strip_nil_iff. unfold preview_of, with_marker.
  destruct (Py.strip _); simpl; [tauto|]. split; discriminate.
Qed.

Lemma preview_empty_iff_blank_prefix_witness :
  text (project Demo.dir_node) = []
  <-> blank (take 200 (default [] (sn_text Demo.dir_node))).
Proof.
  apply (preview_empty_iff_blank_prefix Demo.dir_node). reflexivity.
Defined.

(** Rounding never reverses a ranking: the [i]-th record belongs to the
    [i]-th node, and when one node scores no more than another (a missing
    score counting as 0.0) so does its record. *)
Theorem evidence_scores_keep_ranking
    (response : Response) (previews : list SourcePreview)
    (i j : nat) (a b : SourceNode) :
  _extract_sources response = Ok previews ->
  default [] (source_nodes response) !! i = Some a ->
  default [] (source_nodes response) !! j = Some b ->
  (Py.or_zero (sn_score b) <= Py.or_zero (sn_score a))%Q ->
  exists pa pb,
    previews !! i = Some pa /\ previews !! j = Some pb
    /\ (score pb <= score pa)%Q.
Proof.
  rewrite extract_sources_ok. intros [= <-] Ha Hb Hle.
  exists (project a), (project b).
  change map with (@fmap list _). rewrite !list_lookup_fmap, Ha, Hb.
  repeat split. simpl. apply round3_mono. exact Hle.
Qed.

Lemma evidence_scores_keep_ranking_witness :
  exists pa pb,
    map project [Demo.path_node; Demo.named_node] !! 0%nat = Some pa
    /\ map project [Demo.path_node; Demo.named_node] !! 1%nat = Some pb
    /\ (score pb <= score pa)%Q.
Proof.
  apply (evidence_scores_keep_ranking
           {| response_str := []; source_nodes := Some [Demo.path_node; Demo.named_node] |}
           _ 0%nat 1%nat Demo.path_node Demo.named_node);
    try reflexivity.
  discriminate.
Defined.

(** A score between 0 and 1 is still between 0 and 1 once rounded. *)
Theorem unit_scores_stay_in_unit_interval
    (sn : SourceNode) (p : SourcePreview) (x : Q) :
  extract_one sn = Ok p ->
  sn_score sn = Some x ->
  (0 <= x)%Q -> (x <= 1)%Q ->
  (0 <= score p)%Q /\ (score p <= 1)%Q.
Proof.
  rewrite extract_one_ok. intros [= <-] Hx H0 H1. simpl. rewrite Hx.
  split.
  - change 0%Q with (Py.round3 0). apply round3_mono.
    rewrite or_zero_value. exact H0.
  - change 1%Q with (Py.round3 1). apply round3_mono.
    rewrite or_zero_value. exact H1.
Qed.

Lemma unit_scores_stay_in_unit_interval_witness :
  (0 <= score (project Demo.node))%Q /\ (score (project Demo.node) <= 1)%Q.
Proof.
  apply (unit_scores_stay_in_unit_interval Demo.node _ (8123456 # 10000000));
    try reflexivity; discriminate.
Defined.

(** What [app.py] shows of an evidence record never raises and is at
    most 161 characters long: the whole preview when it has at most 160
    characters, else its first 160 characters and one ['…'].  When the
    trimmed node text itself reaches 160 characters, what is shown is its
    first 160 characters and the ['…']: nothing of the ["..."] marker. *)
Theorem shown_text_of_evidence (sn : SourceNode) (p : SourcePreview) :
  extract_one sn = Ok p ->
  let body := Py.strip (take 200 (default [] (sn_text sn))) in
  exists t,
    shown_text (to_dict p) = Ok t
    /\ (length t <= 161)%nat
    /\ t = (if (160 <? length (text p))%nat
            then take 160 (text p) ++ [8230%N]
            else text p)
    /\ ((160 <= length body)%nat -> t = take 160 body ++ [8230%N]).
Proof.
  rewrite extract_one_ok. intros [= <-] body. unfold shown_text.
  destruct (to_dict_fields (project sn)) as (_ & _ & ->). simpl.
  eexists. split; [reflexivity|].
  fold body. unfold preview_of. fold body.
  split; [|split].
  - destruct (160 <? length (with_marker body))%nat eqn:Hlen.
    + rewrite length_app, length_take. simpl length. lia.
    + apply Nat.ltb_ge in Hlen. rewrite app_nil_r, take_ge by lia. lia.
  - destruct (160 <? length (with_marker body))%nat eqn:Hlen;
      [reflexivity|].
    apply Nat.ltb_ge in Hlen. rewrite app_nil_r, take_ge by lia. reflexivity.
  - intros Hbody. unfold with_marker.
    destruct body as [|c r] eqn:Hb; [simpl in Hbody; lia|].
    simpl Py.truthy. cbv iota. rewrite length_app.
    assert (Hlt : (160 <? length (c :: r) + length ellipsis)%nat = true)
      by (apply Nat.ltb_lt; change (length ellipsis) with 3%nat; lia).
    rewrite Hlt, take_app_le by exact Hbody. reflexivity.
Qed.

Lemma shown_text_of_evidence_witness :
  shown_text (to_dict (project Demo.path_node))
  = Ok (replicate 160 97%N ++ [8230%N]).
Proof.
  destruct (shown_text_of_evidence Demo.path_node
              (project Demo.path_node) eq_refl)
    as (t & Ht & _ & _ & Hlong).
  rewrite Ht, Hlong; [reflexivity|].
  vm_compute. lia.
Defined.

End Evidence.

(** ** More on the life of an instance *)

Section Lifecycle.

Context {L : Library}.

Ltac run :=
  unfold load_or_create_index, query, custom_query, run_engine, bind, call,
    get_self, set_self, as_query_engine, ret, raise, lift, log,
    after_calls, ready_with, default_engine, custom_engine;
  simpl.

Ltac ask :=
  match goal with
  | |- context [StorageContext_from_defaults ?a ?w] =>
      destruct (StorageContext_from_defaults a w) as [[?|?] ?]; simpl
  | |- context [load_index_from_storage ?a ?c ?w] =>
      destruct (load_index_from_storage a c w) as [[?|?] ?]; simpl
  | |- context [SimpleDirectoryReader_load_data ?a ?b ?w] =>
      destruct (SimpleDirectoryReader_load_data a b w) as [[?|?] ?]; simpl
  | |- context [VectorStoreIndex_from_documents ?a ?c ?w] =>
      destruct (VectorStoreIndex_from_documents a c w) as [[?|?] ?]; simpl
  | |- context [storage_context_persist ?a ?b ?w] =>
      destruct (storage_context_persist a b w) as [[?|?] ?]; simpl
  end.

Ltac settle :=
  eexists _, _; split; [rewrite <- ?app_assoc; simpl; reflexivity|];
  split; [repeat constructor|];
  split; [reflexivity|];
  split; [simpl; lia|].

(** Every way [load_or_create_index] can end. *)
Lemma load_cases (s : State) :
  let s' := snd (load_or_create_index s) in
  exists evs w,
    proc s' = after_calls (proc s) evs w
    /\ Forall (fun ev => is_storage_call ev = true) evs
    /\ head evs = Some (EvPathExists (persist_dir (self s)))
    /\ (2 <= length evs <= 4)%nat
    /\ match fst (load_or_create_index s) with
       | Ok _ => exists i, self s' = ready_with i (self s) (settings (proc s))
       | Raised _ =>
           self s' = self s \/ exists i, self s' = set_index i (self s)
       end.
Proof.
  run. set (dir := persist_dir (self s)).
  destruct (os_path_exists dir (world (proc s))); simpl.
  - ask.
    + ask.
      * settle. eexists. reflexivity.
      * settle. left. reflexivity.
    + settle. left. reflexivity.
  - ask.
    + ask.
      * ask.
        -- settle. eexists. reflexivity.
        -- settle. right. eexists. reflexivity.
      * settle. left. reflexivity.
    + settle. left. reflexivity.
Qed.

(** What a query of either kind does to the state. *)
Lemma query_effect
    (q : Py.str) (sp : option Py.str) (s : State) (custom : bool) :
  let s' := snd (if custom then custom_query q sp s else query q s) in
  self s' = self s
  /\ settings (proc s') = settings (proc s)
  /\ exists evs,
      calls (proc s') = calls (proc s) ++ evs
      /\ (length evs <= 1)%nat
      /\ Forall (fun ev => is_storage_call ev = false
                           /\ is_library_call ev = true) evs
      /\ (evs = [] -> s' = s).
Proof.
  assert (Hrun : forall qe,
            self (snd (run_engine qe q s)) = self s
            /\ settings (proc (snd (run_engine qe q s))) = settings (proc s)
            /\ exists evs,
                calls (proc (snd (run_engine qe q s))) = calls (proc s) ++ evs
                /\ (length evs <= 1)%nat
                /\ Forall (fun ev => is_storage_call ev = false
                                     /\ is_library_call ev = true) evs
                /\ (evs = [] -> snd (run_engine qe q s) = s)).
  { intros qe. destruct (run_engine_shape qe q s) as (Hs & Hp & _).
    rewrite Hs, Hp. simpl. repeat split.
    eexists. split; [reflexivity|]. split; [simpl; lia|].
    split; [repeat constructor | discriminate]. }
  assert (Hstay : self s = self s
            /\ settings (proc s) = settings (proc s)
            /\ exists evs,
                calls (proc s) = calls (proc s) ++ evs
                /\ (length evs <= 1)%nat
                /\ Forall (fun ev => is_storage_call ev = false
                                     /\ is_library_call ev = true) evs
                /\ (evs = [] -> s = s)).
  { repeat split. exists []. rewrite app_nil_r.
    repeat split; [simpl; lia | constructor]. }
  simpl. destruct custom.
  - rewrite custom_query_unfold.
    destruct (query_engine (self s)); [|exact Hstay].
    destruct (Py.truthy_opt sp); [|apply Hrun].
    destruct (index (self s)); [apply Hrun | exact Hstay].
  - rewrite query_unfold.
    destruct (query_engine (self s)); [apply Hrun | exact Hstay].
Qed.

(** The calls a query of either kind adds to the log: none, or one
    question to one engine. *)
Lemma query_events
    (q : Py.str) (sp : option Py.str) (s : State) (custom : bool) :
  let s' := snd (if custom then custom_query q sp s else query q s) in
  calls (proc s') = calls (proc s)
  \/ exists qe,
       calls (proc s')
       = calls (proc s) ++ [EvEngineQuery qe q (settings (proc s))].
Proof.
  assert (Hrun : forall qe,
            exists qe',
              calls (proc (snd (run_engine qe q s)))
              = calls (proc s) ++ [EvEngineQuery qe' q (settings (proc s))]).
  { intros qe. destruct (run_engine_shape qe q s) as (_ & -> & _).
    exists qe. reflexivity. }
  simpl. destruct custom.
  - rewrite custom_query_unfold.
    destruct (query_engine (self s)); [|left; reflexivity].
    destruct (Py.truthy_opt sp); [|right; apply Hrun].
    destruct (index (self s)); [right; apply Hrun | left; reflexivity].
  - rewrite query_unfold.
    destruct (query_engine (self s)); [right; apply Hrun | left; reflexivity].
Qed.

(** [query] and [custom_query] ask at most one question of one engine,
    the question they were given, and make no call on the stored index
    or the documents: they never look at the persist directory, read
    documents, build, load or persist an index.  They leave the instance
    and the global settings alone. *)
Theorem queries_ask_one_engine_at_most
    (q : Py.str) (sp : option Py.str) (s : State) :
  forall s',
    s' = snd (query q s) \/ s' = snd (custom_query q sp s) ->
    self s' = self s
    /\ settings (proc s') = settings (proc s)
    /\ exists evs,
        calls (proc s') = calls (proc s) ++ evs
        /\ (length (List.filter is_engine_query evs) <= 1)%nat
        /\ List.filter is_storage_call evs = []
        /\ Forall (fun ev => forall qe q' cfg,
                             ev = EvEngineQuery qe q' cfg -> q' = q) evs.
Proof.
  assert (Hboth : forall custom : bool,
            let s' := snd (if custom then custom_query q sp s else query q s) in
            self s' = self s
            /\ settings (proc s') = settings (proc s)
            /\ exists evs,
                calls (proc s') = calls (proc s) ++ evs
                /\ (length (List.filter is_engine_query evs) <= 1)%nat
                /\ List.filter is_storage_call evs = []
                /\ Forall (fun ev => forall qe q' cfg,
                                     ev = EvEngineQuery qe q' cfg -> q' = q) evs).
  { intros custom.
    destruct (query_effect q sp s custom) as (Hs & Hc & _).
    split; [exact Hs|]. split; [exact Hc|].
    destruct (query_events q sp s custom) as [Hnone | [qe Hone]].
    - exists []. rewrite app_nil_r. split; [exact Hnone|].
      split; [simpl; lia|]. split; [reflexivity | constructor].
    - eexists. split; [exact Hone|]. split; [simpl; lia|].
      split; [reflexivity|]. repeat constructor. intros ? ? ? [= _ <- _].
      reflexivity. }
  intros s' [-> | ->].
  - exact (Hboth false).
  - exact (Hboth true).
Qed.

(** Without a prompt, or with the empty prompt, [custom_query] is
    [query]. *)
Theorem custom_query_without_prompt_is_query (q : Py.str) (s : State) :
  custom_query q None s = query q s
  /\ custom_query q (Some []) s = query q s.
Proof.
  rewrite !custom_query_unfold, query_unfold. simpl.
  destruct (query_engine (self s)); split; reflexivity.
Qed.

(** No call changes the directories or [top_k] of an instance, and
    [load_or_create_index], [query] and [custom_query] never change the
    global settings.  Constructing an instance does: when the constructor
    returns, the three settings are those of its arguments; when it
    raises, [llm] alone, or [llm] and [embed_model], or nothing has been
    replaced, and the rest is as before. *)
Theorem methods_keep_configuration (m : Method) (s : State) :
  cvs_dir (self (step m s)) = cvs_dir (self s)
  /\ persist_dir (self (step m s)) = persist_dir (self s)
  /\ top_k (self (step m s)) = top_k (self s)
  /\ match m with
     | OtherInit a =>
         match fst (__init__ a (proc s)) with
         | Ok _ => settings (proc (step m s)) = settings_of a
         | Raised _ =>
             settings (proc (step m s)) = settings (proc s)
             \/ settings (proc (step m s))
                = {| llm := llm (settings_of a);
                     embed_model := embed_model (settings (proc s));
                     node_parser := node_parser (settings (proc s)) |}
             \/ settings (proc (step m s))
                = {| llm := llm (settings_of a);
                     embed_model := embed_model (settings_of a);
                     node_parser := node_parser (settings (proc s)) |}
         end
     | _ => settings (proc (step m s)) = settings (proc s)
     end.
Proof.
  destruct m as [|q|q sp|a]; simpl.
  - destruct (load_cases s) as (evs & w & Hp & _ & _ & _ & Hs).
    simpl in Hp, Hs. rewrite Hp.
    destruct (fst (load_or_create_index s));
      [destruct Hs as [i ->] | destruct Hs as [-> | [i ->]]];
      repeat split.
  - destruct (query_effect q None s false) as (Hs & Hc & _).
    simpl in Hs, Hc. rewrite Hs, Hc. repeat split.
  - destruct (query_effect q sp s true) as (Hs & Hc & _).
    simpl in Hs, Hc. rewrite Hs, Hc. repeat split.
  - repeat split. destruct (init_shape a (proc s)) as [_ Hinit].
    destruct (fst (__init__ a (proc s))); [apply Hinit | exact Hinit].
Qed.

Lemma step_keeps_ready (m : Method) (s : State) :
  (query_engine (self s) <> None -> query_engine (self (step m s)) <> None)
  /\ (index (self s) <> None -> index (self (step m s)) <> None).
Proof.
  destruct m as [|q|q sp|a]; simpl.
  - destruct (load_cases s) as (evs & w & _ & _ & _ & _ & Hs). simpl in Hs.
    destruct (fst (load_or_create_index s));
      [destruct Hs as [i ->] | destruct Hs as [-> | [i ->]]];
      simpl; split; auto; discriminate.
  - destruct (query_effect q None s false) as (Hs & _).
    simpl in Hs. rewrite Hs. auto.
  - destruct (query_effect q sp s true) as (Hs & _).
    simpl in Hs. rewrite Hs. auto.
  - auto.
Qed.

(** Once an engine is prepared the instance stays ready: whatever calls
    follow and however they end, also a reload that raises, the instance
    keeps an engine and an index, and [query] asks an engine. *)
Theorem ready_is_permanent (ms : list Method) (s : State) (q : Py.str) :
  query_engine (self s) <> None ->
  index (self s) <> None ->
  exists qe,
    query_engine (self (steps ms s)) = Some qe
    /\ index (self (steps ms s)) <> None
    /\ calls (proc (snd (query q (steps ms s))))
       = calls (proc (steps ms s))
         ++ [EvEngineQuery qe q (settings (proc (steps ms s)))].
Proof.
  revert s. induction ms as [|m rest IH]; intros s Hqe Hidx; simpl.
  - destruct (query_engine (self s)) as [qe|] eqn:Heq; [|congruence].
    exists qe. split; [reflexivity|]. split; [assumption|].
    rewrite query_unfold, Heq.
    destruct (run_engine_shape qe q s) as (_ & -> & _). reflexivity.
  - destruct (step_keeps_ready m s) as (H1 & H2). apply IH; auto.
Qed.


End Lifecycle.

(** ** The test runner and the chat session *)

Section Sessions.

Context {L : Library}.

Lemma query_each_cons (q : Py.str) (rest : list Py.str) (s : State) :
  query_each (q :: rest) s
  = match query q s with
    | (Ok _, s') => query_each rest s'
    | (Raised e, s') => (Raised e, s')
    end.
Proof. reflexivity. Qed.

(** The loop asks the questions in order, all of the same engine under
    the same settings, and the first question that raises is the last it
    asks: the state it leaves is the state after that question, and every
    question before it returned. *)
Lemma query_each_stops (qs : list Py.str) (s : State) (qe : QueryEngine Index) :
  query_engine (self s) = Some qe ->
  exists asked later,
    qs = asked ++ later
    /\ snd (query_each qs s) = steps (map CallQuery asked) s
    /\ calls (proc (snd (query_each qs s)))
       = calls (proc s)
         ++ map (fun q => EvEngineQuery qe q (settings (proc s))) asked
    /\ match fst (query_each qs s) with
       | Ok _ => later = [] /\ all_returned asked s
       | Raised e =>
           exists before q,
             asked = before ++ [q]
             /\ all_returned before s
             /\ fst (query q (steps (map CallQuery before) s)) = Raised e
       end.
Proof.
  revert s. induction qs as [|q rest IH]; intros s Hqe.
  - exists [], []. simpl. rewrite app_nil_r. repeat split.
  - assert (Hquery : query q s = run_engine qe q s)
      by (rewrite query_unfold, Hqe; reflexivity).
    destruct (run_engine_shape qe q s) as (Hs & Hp & _).
    rewrite <- Hquery in Hs, Hp.
    rewrite query_each_cons.
    destruct (query q s) as [[r|e] s1] eqn:Hq; simpl in Hs, Hp.
    + destruct (IH s1) as (asked & later & Hsplit & Hstate & Hcalls & Hout);
        [rewrite Hs; exact Hqe|].
      exists (q :: asked), later. simpl. rewrite Hq. simpl.
      split; [congruence|]. split; [exact Hstate|].
      split.
      * rewrite Hcalls, Hp. simpl. rewrite <- app_assoc. reflexivity.
      * destruct (fst (query_each rest s1)).
        -- destruct Hout as [-> Hall]. repeat split; eauto.
        -- destruct Hout as (before & q' & -> & Hall & Hraise).
           exists (q :: before), q'. simpl. rewrite Hq. simpl.
           repeat split; eauto.
    + exists [q], rest. simpl. rewrite Hq. simpl.
      split; [reflexivity|]. split; [reflexivity|].
      split; [rewrite Hp; reflexivity|].
      exists [], q. simpl. rewrite Hq. repeat split.
Qed.

(** [test_rag] asks nothing unless the instance could be constructed
    and its index loaded or created: an exception of the constructor or
    of [load_or_create_index] is its outcome.  Otherwise it asks the
    prepared engine, which searches with [similarity_top_k = 5], its
    questions in order and stops at the first that raises: that
    exception is its outcome, the questions after it are not asked, and
    every question before it returned.  When it returns, all four were
    asked and returned. *)
Theorem test_rag_asks_in_order_after_loading
    (environ : gmap string Py.str) (p : Proc) :
  match __init__ (default_args environ) p with
  | (Raised e, p1) =>
      fst (test_rag environ p) = Raised e
      /\ calls (proc (snd (test_rag environ p))) = calls p
  | (Ok rag0, p1) =>
      let loaded := load_or_create_index {| self := rag0; proc := p1 |} in
      match fst loaded with
      | Raised e => test_rag environ p = (Raised e, snd loaded)
      | Ok _ =>
          exists qe asked later,
            query_engine (self (snd loaded)) = Some qe
            /\ similarity_top_k qe = 5
            /\ test_queries = asked ++ later
            /\ snd (test_rag environ p)
               = steps (map CallQuery asked) (snd loaded)
            /\ calls (proc (snd (test_rag environ p)))
               = calls (proc (snd loaded))
                 ++ map (fun q => EvEngineQuery qe q
                                    (settings_of (default_args environ)))
                        asked
            /\ match fst (test_rag environ p) with
               | Ok _ => later = [] /\ all_returned asked (snd loaded)
               | Raised e =>
                   exists before q,
                     asked = before ++ [q]
                     /\ all_returned before (snd loaded)
                     /\ fst (query q (steps (map CallQuery before) (snd loaded)))
                        = Raised e
               end
      end
  end.
Proof.
  unfold test_rag, bind. generalize test_queries. intros qs.
  destruct (init_shape (default_args environ) p) as [Hcalls Hinit].
  destruct (__init__ (default_args environ) p) as [[rag0|e] p1];
    simpl in Hcalls, Hinit |- *; [|split; [reflexivity | exact Hcalls]].
  destruct Hinit as [-> Hset].
  set (s0 := {| self := fresh_instance (default_args environ); proc := p1 |}).
  destruct (load_cases s0) as (evs & w & Hp & _ & _ & _ & Hs).
  simpl in Hp, Hs.
  destruct (load_or_create_index s0) as [[[]|e] s1]; simpl in Hp, Hs |- *;
    [|reflexivity].
  destruct Hs as [i Hs].
  destruct (query_each_stops qs s1 _ ltac:(rewrite Hs; reflexivity))
    as (asked & later & Hsplit & Hstate & Hlog & Hout).
  eexists _, asked, later. rewrite Hs.
  split; [reflexivity|]. split; [reflexivity|]. split; [exact Hsplit|].
  split; [exact Hstate|]. split; [|exact Hout].
  rewrite Hlog, Hp. simpl. rewrite Hset. reflexivity.
Qed.

(** The handler on an instance that has no engine. *)
Lemma handler_not_ready (a : App) (q : Py.str) :
  Py.truthy q = true ->
  query_engine (rag a) = None ->
  on_chat_input (Some q) a
  = (Ok tt,
     {| rag := rag a;
        messages := messages a
                    ++ [user_message q; assistant_message failure_answer []];
        app_proc :=
          after_calls (app_proc a)
            [EvStMarkdown q;
             EvStatus (Py.lit "Searching through CVs" ++ [8230%N])
                      (Py.lit "running");
             EvStatus (Py.lit "Error") (Py.lit "error");
             EvStError (error_text not_loaded);
             EvStMarkdown failure_answer] (world (app_proc a)) |}).
Proof.
  intros Hq Hqe. unfold on_chat_input. simpl. rewrite Hq.
  rewrite query_unfold. simpl. rewrite Hqe. simpl.
  unfold show_and_save, append_message, ui, after_query, log, after_calls,
    assistant_message, user_message. simpl.
  rewrite <- !app_assoc. reflexivity.
Qed.

(** The handler on an instance with an engine: what it does follows
    from what the engine answers. *)
Lemma handler_ready (a : App) (q : Py.str) (qe : QueryEngine Index) :
  Py.truthy q = true ->
  query_engine (rag a) = Some qe ->
  let o := query_engine_query qe q (settings (app_proc a)) (world (app_proc a)) in
  let asked :=
    [EvStMarkdown q;
     EvStatus (Py.lit "Searching through CVs" ++ [8230%N]) (Py.lit "running");
     EvEngineQuery qe q (settings (app_proc a))] in
  on_chat_input (Some q) a
  = match fst o with
    | Ok response =>
        (Ok tt,
         {| rag := rag a;
            messages :=
              messages a
              ++ [user_message q;
                  assistant_message (response_str response)
                    (map to_dict (map project
                       (default [] (source_nodes response))))];
            app_proc :=
              after_calls (app_proc a)
                (asked ++ [EvStatus (Py.lit "Found relevant results")
                                    (Py.lit "complete");
                           EvStMarkdown (response_str response)]) (snd o) |})
    | Raised e =>
        if is_Exception e then
          (Ok tt,
           {| rag := rag a;
              messages := messages a
                          ++ [user_message q;
                              assistant_message failure_answer []];
              app_proc :=
                after_calls (app_proc a)
                  (asked ++ [EvStatus (Py.lit "Error") (Py.lit "error");
                             EvStError (error_text e);
                             EvStMarkdown failure_answer]) (snd o) |})
        else
          (Raised e,
           {| rag := rag a;
              messages := messages a ++ [user_message q];
              app_proc := after_calls (app_proc a) asked (snd o) |})
    end.
Proof.
  intros Hq Hqe. simpl. unfold on_chat_input. simpl. rewrite Hq.
  rewrite query_unfold. simpl. rewrite Hqe.
  unfold run_engine, bind, call, lift, ret. simpl.
  destruct (query_engine_query qe q (settings (app_proc a)) (world (app_proc a)))
    as [[response|e] w]; simpl.
  - rewrite extract_sources_ok. simpl.
    unfold show_and_save, append_message, ui, after_query, log, after_calls,
      assistant_message, user_message. simpl.
    rewrite <- !app_assoc. reflexivity.
  - destruct (is_Exception e); simpl;
      unfold show_and_save, append_message, ui, after_query, log, after_calls,
        assistant_message, user_message; simpl;
      rewrite <- !app_assoc; reflexivity.
Qed.

(** Every way one run of the handler can end. *)
Lemma handler_cases (u : option Py.str) (a : App) :
  let r := on_chat_input u a in
  rag (snd r) = rag a
  /\ settings (app_proc (snd r)) = settings (app_proc a)
  /\ (exists evs,
        calls (app_proc (snd r)) = calls (app_proc a) ++ evs
        /\ (length (List.filter is_library_call evs) <= 1)%nat)
  /\ match fst r with
     | Ok _ =>
         (Py.truthy_opt u = false /\ snd r = a)
         \/ exists answer srcs,
              Py.truthy_opt u = true
              /\ messages (snd r)
                 = messages a ++ [user_message (default [] u);
                                  assistant_message answer srcs]
     | Raised e =>
         is_Exception e = false
         /\ messages (snd r) = messages a ++ [user_message (default [] u)]
     end.
Proof.
  destruct u as [q|]; [destruct (Py.truthy q) eqn:Hq|].
  - destruct (query_engine (rag a)) as [qe|] eqn:Hqe.
    + simpl. rewrite (handler_ready a q qe Hq Hqe). simpl.
      destruct (query_engine_query qe q (settings (app_proc a))
                  (world (app_proc a))) as [[response|e] w]; simpl.
      * repeat split; [eexists; split; [reflexivity|simpl; lia]|].
        right. eauto.
      * destruct (is_Exception e) eqn:He; simpl.
        -- repeat split; [eexists; split; [reflexivity|simpl; lia]|].
           right. eauto.
        -- repeat split; [|exact He].
           eexists; split; [reflexivity|simpl; lia].
    + simpl. rewrite (handler_not_ready a q Hq Hqe). simpl.
      repeat split; [eexists; split; [reflexivity|simpl; lia]|].
      right. eauto.
  - unfold on_chat_input. simpl. rewrite Hq. simpl.
    repeat split; [exists []; rewrite app_nil_r; split; [reflexivity|simpl; lia]|].
    left. auto.
  - simpl. repeat split;
      [exists []; rewrite app_nil_r; split; [reflexivity|simpl; lia]|].
    left. auto.
Qed.

(** Whatever the input and however the run ends, the chat handler leaves
    the pipeline instance and the global settings as they were, keeps the
    earlier messages and only adds to them, and makes at most one call
    into the library. *)
Theorem chat_handler_frame (u : option Py.str) (a : App) :
  let a' := snd (on_chat_input u a) in
  rag a' = rag a
  /\ settings (app_proc a') = settings (app_proc a)
  /\ (exists added, messages a' = messages a ++ added
                    /\ (length added <= 2)%nat)
  /\ exists evs,
      calls (app_proc a') = calls (app_proc a) ++ evs
      /\ (length (List.filter is_library_call evs) <= 1)%nat.
Proof.
  destruct (handler_cases u a) as (Hrag & Hset & Hcalls & Hout). simpl in *.
  split; [exact Hrag|]. split; [exact Hset|]. split; [|exact Hcalls].
  destruct (fst (on_chat_input u a)).
  - destruct Hout as [[_ ->] | (answer & srcs & _ & ->)].
    + exists []. rewrite app_nil_r. split; [reflexivity | simpl; lia].
    + eexists. split; [reflexivity | simpl; lia].
  - destruct Hout as [_ ->]. eexists. split; [reflexivity | simpl; lia].
Qed.

(** On an instance whose index was never loaded, a chat question is
    answered with the failure message and no sources, the error shown is
    the "Index not loaded" text, and nothing is asked of the library. *)
Theorem chat_on_unready_instance_asks_nothing (a : App) (q : Py.str) :
  Py.truthy q = true ->
  query_engine (rag a) = None ->
  let r := on_chat_input (Some q) a in
  fst r = Ok tt
  /\ messages (snd r)
     = messages a ++ [user_message q; assistant_message failure_answer []]
  /\ world (app_proc (snd r)) = world (app_proc a)
  /\ List.filter is_library_call (calls (app_proc (snd r)))
     = List.filter is_library_call (calls (app_proc a))
  /\ EvStError ([10060%N; 32%N]
                ++ Py.lit "Index not loaded! Call load_or_create_index() first")
     ∈ calls (app_proc (snd r)).
Proof.
  intros Hq Hqe. simpl. rewrite (handler_not_ready a q Hq Hqe). simpl.
  split; [reflexivity|]. split; [reflexivity|]. split; [reflexivity|].
  split.
  - rewrite List.filter_app. simpl. apply app_nil_r.
  - apply list_elem_of_In, in_or_app. right. simpl. tauto.
Qed.

(** An exception of the engine that is not an [Exception] (a keyboard
    interrupt, a system exit) is not caught: the run ends with it, the
    user's message is saved and no assistant message follows it. *)
Theorem base_exception_ends_the_run
    (a : App) (q : Py.str) (qe : QueryEngine Index) (e : exn) (w : World) :
  Py.truthy q = true ->
  query_engine (rag a) = Some qe ->
  query_engine_query qe q (settings (app_proc a)) (world (app_proc a))
  = (Raised e, w) ->
  is_Exception e = false ->
  let r := on_chat_input (Some q) a in
  fst r = Raised e
  /\ messages (snd r) = messages a ++ [user_message q]
  /\ Forall (fun ev => forall msg, ev <> EvStError msg)
            (drop (length (calls (app_proc a))) (calls (app_proc (snd r)))).
Proof.
  intros Hq Hqe Hcall He. simpl.
  rewrite (handler_ready a q qe Hq Hqe). simpl. rewrite Hcall. simpl.
  rewrite He. simpl. split; [reflexivity|]. split; [reflexivity|].
  rewrite drop_app_length. repeat constructor; discriminate.
Qed.

Lemma turns_snoc (ms : list Message) (q answer : Py.str) (srcs : Evidence) :
  turns ms ->
  turns (ms ++ [user_message q; assistant_message answer srcs]).
Proof.
  induction 1 as [|q' answer' srcs' rest _ IH]; simpl.
  - repeat constructor.
  - constructor. exact IH.
Qed.

(** A session in which every run returns keeps the history in complete
    turns, a user message followed by the assistant's message: two
    messages more for every non-empty input, none for an empty one; the
    instance is the same at the end. *)
Theorem chat_history_is_made_of_turns
    (inputs : list (option Py.str)) (a a' : App) :
  turns (messages a) ->
  chat_inputs inputs a = (Ok tt, a') ->
  turns (messages a')
  /\ length (messages a')
     = (length (messages a)
        + 2 * length (List.filter Py.truthy_opt inputs))%nat
  /\ rag a' = rag a.
Proof.
  revert a. induction inputs as [|u rest IH]; intros a Hturns Hrun.
  - injection Hrun as <-. simpl. repeat split; [assumption | lia].
  - simpl in Hrun.
    destruct (handler_cases u a) as (Hrag & _ & _ & Hout). simpl in *.
    destruct (on_chat_input u a) as [[[]|e] a1]; simpl in *; [|discriminate].
    destruct Hout as [[Hu ->] | (answer & srcs & Hu & Hmsg)]; rewrite Hu.
    + apply IH; assumption.
    + destruct (IH a1) as (Ht & Hlen & Hr); [|exact Hrun|].
      * rewrite Hmsg. apply turns_snoc. exact Hturns.
      * split; [exact Ht|]. split; [|congruence].
        rewrite Hlen, Hmsg, length_app. simpl. lia.
Qed.

End Sessions.

(** ** The further properties at work on the small library *)

Section MoreRuns.

#[local] Existing Instance Demo.lib.

Lemma queries_ask_one_engine_at_most_witness :
  self (snd (custom_query (Py.lit "who?") (Some (Py.lit "Be brief")) Demo.ready))
  = self Demo.ready
  /\ settings (proc (snd (custom_query (Py.lit "who?")
                            (Some (Py.lit "Be brief")) Demo.ready)))
     = settings (proc Demo.ready).
Proof.
  destruct (queries_ask_one_engine_at_most (Py.lit "who?")
              (Some (Py.lit "Be brief")) Demo.ready
              (snd (custom_query (Py.lit "who?") (Some (Py.lit "Be brief"))
                      Demo.ready)))
    as (Hs & Hc & _).
  - right. reflexivity.
  - split; assumption.
Defined.

Lemma ready_is_permanent_witness :
  exists qe,
    query_engine (self (steps [CallLoad; CallQuery (Py.lit "fail")] Demo.ready))
    = Some qe
    /\ index (self (steps [CallLoad; CallQuery (Py.lit "fail")] Demo.ready))
       <> None.
Proof.
  destruct (ready_is_permanent [CallLoad; CallQuery (Py.lit "fail")]
              Demo.ready (Py.lit "hi"))
    as (qe & Hqe & Hidx & _).
  - discriminate.
  - discriminate.
  - exists qe. split; assumption.
Defined.


Lemma chat_on_unready_instance_asks_nothing_witness :
  fst (on_chat_input (Some (Py.lit "hi")) Demo.unready_app) = Ok tt
  /\ messages (snd (on_chat_input (Some (Py.lit "hi")) Demo.unready_app))
     = [user_message (Py.lit "hi"); assistant_message failure_answer []].
Proof.
  destruct (chat_on_unready_instance_asks_nothing Demo.unready_app
              (Py.lit "hi") eq_refl eq_refl)
    as (Hok & Hmsg & _).
  split; [exact Hok | exact Hmsg].
Defined.

Lemma base_exception_ends_the_run_witness :
  fst (@on_chat_input Demo.interrupted_lib (Some (Py.lit "hi"))
         Demo.interrupted_app)
  = Raised Demo.interrupt
  /\ messages (snd (@on_chat_input Demo.interrupted_lib (Some (Py.lit "hi"))
                      Demo.interrupted_app))
     = [user_message (Py.lit "hi")].
Proof.
  destruct (@base_exception_ends_the_run Demo.interrupted_lib
              Demo.interrupted_app (Py.lit "hi")
              (@default_engine Demo.interrupted_lib [Py.lit "cvs"]
                 (self Demo.interrupted_start)
                 (settings (proc Demo.interrupted_start)))
              Demo.interrupt true eq_refl eq_refl eq_refl eq_refl)
    as (Hout & Hmsg & _).
  split; [exact Hout | exact Hmsg].
Defined.

Lemma chat_history_is_made_of_turns_witness :
  turns (messages (snd (chat_inputs
                          [Some (Py.lit "fail"); None; Some (Py.lit "hi")]
                          Demo.app)))
  /\ length (messages (snd (chat_inputs
                              [Some (Py.lit "fail"); None; Some (Py.lit "hi")]
                              Demo.app))) = 4%nat.
Proof.
  destruct (chat_history_is_made_of_turns
              [Some (Py.lit "fail"); None; Some (Py.lit "hi")] Demo.app
              (snd (chat_inputs [Some (Py.lit "fail"); None; Some (Py.lit "hi")]
                      Demo.app)))
    as (Ht & Hlen & _).
  - constructor.
  - vm_compute. reflexivity.
  - split; [exact Ht | exact Hlen].
Defined.

End MoreRuns.
